(** * Plot dashboard: normalization, coordinate mapping, filters, summary

    A shallow embedding of the pandas pipeline shared by [app.py],
    [app_v2.py] and [app_multi.py]: [load_data] coerces the columns of the
    sheet, the dashboard maps the spatial columns to plot coordinates,
    filters rows with boolean masks, sizes the markers and builds the
    sold-summary table.

    Conventions. A DataFrame is its column index together with its rows;
    a row is a dictionary from column names to cells.  float64 values are
    represented by exact rationals (the square root of the marker sizes
    is taken in the reals), timestamps by an integer ordinal, and the
    missing value (NaN, NaT, None) by [NaN]. *)

From Stdlib Require Import QArith Qreals Reals Psatz ZArith Ascii.
From stdpp Require Import gmap strings list sorting pretty.

Open Scope string_scope.

(** ** Cells, series and frames *)

Inductive cell : Type :=
  | NaN
  | Num (q : Q)
  | Str (s : string)
  | Timestamp (t : Z).

Abbreviation Series := (list cell).
Abbreviation Row := (gmap string cell).

Record DataFrame : Type := mkDataFrame {
  columns : list string;
  rows : list Row
}.

(** [len(df)] *)
Definition len (df : DataFrame) : nat := length (rows df).

(** The value a row holds in a column; a field the row lacks reads as
    missing, as [read_csv] fills short lines. *)
Definition at_ (r : Row) (c : string) : cell := default NaN (r !! c).

(** ** Exceptions *)

(** [KeyError]: a column read by name is not in the frame.
    [SchemaError]: the report of the required columns the sheet lacks,
    after which the script stops.  [LoadFailed]: the report of any other
    exception raised while loading, after which the script stops. *)
Inductive exn : Type :=
  | KeyError (col : string)
  | SchemaError (missing_cols : list string)
  | LoadFailed (cause : exn).

Inductive result (A : Type) : Type :=
  | Ok (a : A)
  | Raise (e : exn).
Arguments Ok {A} a.
Arguments Raise {A} e.

#[export] Instance result_ret : MRet result := λ A a, Ok a.

#[export] Instance result_bind : MBind result := λ A B k m,
  match m with
  | Ok a => k a
  | Raise e => Raise e
  end.

(** ** pandas primitives *)

(** [df[c]] *)
Definition getitem (df : DataFrame) (c : string) : result Series :=
  if decide (c ∈ columns df)
  then Ok ((λ r, at_ r c) <$> rows df)
  else Raise (KeyError c).

(** [df[c] = s]: values are aligned on the row index; the column is
    appended to the index when it is new. *)
Definition setitem (df : DataFrame) (c : string) (s : Series) : DataFrame :=
  {| columns := if decide (c ∈ columns df) then columns df else columns df ++ [c];
     rows := imap (λ i r, <[c := default NaN (s !! i)]> r) (rows df) |}.

(** [df[mask]] *)
Fixpoint select {A} (l : list A) (mask : list bool) : list A :=
  match l, mask with
  | x :: l', b :: mask' => if b then x :: select l' mask' else select l' mask'
  | _, _ => []
  end.

Definition loc (df : DataFrame) (mask : list bool) : DataFrame :=
  {| columns := columns df; rows := select (rows df) mask |}.

(** The effect on one row of [df[c] = f(df[c])] for an elementwise [f]. *)
Definition assign (c : string) (f : cell → cell) (r : Row) : Row :=
  <[c := f (at_ r c)]> r.

(** ** Elementwise operations on series *)

(** The text conversions of the library: how a string parses as a number
    ([pd.to_numeric]) or as a [%d/%m/%y] date ([pd.to_datetime]), and how
    a value prints ([astype(str)]). *)
Class PandasText : Type := {
  parse_number : string → option Q;
  parse_datetime : string → option Z;
  str_number : Q → string;
  str_timestamp : Z → string
}.

Section Elementwise.
Context `{PandasText}.

(** [pd.to_numeric(s, errors="coerce")] on one value.  A timestamp
    converts to its integer ordinal. *)
Definition to_numeric (c : cell) : cell :=
  match c with
  | NaN => NaN
  | Num q => Num q
  | Str s => from_option Num NaN (parse_number s)
  | Timestamp t => Num (inject_Z t)
  end.

(** [s.astype(str)] on one value. *)
Definition astype_str (c : cell) : cell :=
  match c with
  | NaN => Str "nan"
  | Num q => Str (str_number q)
  | Str s => Str s
  | Timestamp t => Str (str_timestamp t)
  end.

(** [pd.to_datetime(s, format="%d/%m/%y", errors="coerce")] on one
    value; a number is parsed through its printed form. *)
Definition to_datetime (c : cell) : cell :=
  match c with
  | NaN => NaN
  | Num q => from_option Timestamp NaN (parse_datetime (str_number q))
  | Str s => from_option Timestamp NaN (parse_datetime s)
  | Timestamp t => Timestamp t
  end.
End Elementwise.

(** [s.fillna(v)] *)
Definition fillna (v : cell) (c : cell) : cell :=
  match c with
  | NaN => v
  | _ => c
  end.

(** [s * k] and [h - s] on a numeric column: a missing value stays
    missing.  Columns reaching these operators went through
    [to_numeric], so they hold only [Num] and [NaN]. *)
Definition mul (k : Q) (c : cell) : cell :=
  match c with
  | Num q => Num (q * k)
  | _ => NaN
  end.

Definition rsub (h : Q) (c : cell) : cell :=
  match c with
  | Num q => Num (h - q)
  | _ => NaN
  end.

(** [s.isna()] *)
Definition isna (c : cell) : bool :=
  match c with
  | NaN => true
  | _ => false
  end.

(** [a <= b] between two values of one dtype; any comparison with a
    missing value is False. *)
Definition cell_le (a b : cell) : bool :=
  match a, b with
  | Num x, Num y => Qle_bool x y
  | Timestamp x, Timestamp y => (x <=? y)%Z
  | _, _ => false
  end.

(** [s >= v] and [s <= v] *)
Definition at_least (v : cell) (c : cell) : bool := cell_le v c.
Definition at_most (v : cell) (c : cell) : bool := cell_le c v.

(** [s == "text"] *)
Definition eq_str (v : string) (c : cell) : bool :=
  match c with
  | Str s => bool_decide (s = v)
  | _ => false
  end.

(** [s.isin(values)] for a list of strings *)
Definition isin (values : list string) (c : cell) : bool :=
  match c with
  | Str s => bool_decide (s ∈ values)
  | _ => false
  end.

(** [m1 & m2] and [m1 | m2] on masks *)
Definition mask_and (m1 m2 : list bool) : list bool := zip_with andb m1 m2.
Definition mask_or (m1 m2 : list bool) : list bool := zip_with orb m1 m2.

Infix "&&&" := mask_and (at level 40, left associativity).
Infix "|||" := mask_or (at level 50, left associativity).

(** ** Reductions *)

(** [s.sum()]: missing values are skipped. *)
Definition series_sum (s : Series) : Q :=
  foldl (λ acc c, match c with Num q => (acc + q)%Q | _ => acc end) 0%Q s.

(** [s.count()]: the number of values that are not missing. *)
Definition series_count (s : Series) : nat :=
  length (List.filter (λ c, negb (isna c)) s).

(** [s.min()] and [s.max()]: missing values are skipped; the result is
    missing when nothing is left. *)
Abbreviation fmin :=
  (λ (acc : option Q) (c : cell),
     match c, acc with
     | Num q, Some m => Some (if Qle_bool m q then m else q)
     | Num q, None => Some q
     | _, _ => acc
     end).

Abbreviation fmax :=
  (λ (acc : option Q) (c : cell),
     match c, acc with
     | Num q, Some m => Some (if Qle_bool q m then m else q)
     | Num q, None => Some q
     | _, _ => acc
     end).

Definition series_min (s : Series) : option Q := foldl fmin None s.

Definition series_max (s : Series) : option Q := foldl fmax None s.

(** ** The sold-summary table

    The same statements build it in the three scripts; only the label of
    the last row differs. *)

Definition int (n : nat) : cell := Num (inject_Z (Z.of_nat n)).

(** The key of a row in [groupby("Owner_Name")].  Rows with a missing key
    are left out of every group; the rows grouped here passed [isin], so
    each key is a string. *)
Definition group_key (r : Row) : option string :=
  match at_ r "Owner_Name" with
  | Str s => Some s
  | _ => None
  end.

Definition string_le (a b : string) : Prop := String.leb a b = true.

#[export] Instance string_le_dec a b : Decision (string_le a b).
Proof. unfold string_le. apply _. Defined.

(** The group keys, each once, in sorted order. *)
Definition group_keys (rs : list Row) : list string :=
  merge_sort string_le (remove_dups (omap group_key rs)).

(** The rows of one group. *)
Definition group (rs : list Row) (k : string) : list Row :=
  List.filter (λ r, bool_decide (group_key r = Some k)) rs.

(** The row of one group: its key, the count of its plot numbers and the
    sum of its amounts. *)
Definition agg (rs : list Row) (k : string) : Row :=
  let g := group rs k in
  {[ "Owner" := Str k;
     "Sold_Plots" := int (series_count ((λ r, at_ r "Plot_Number") <$> g));
     "Total_Sold_Amount" := Num (series_sum ((λ r, at_ r "Sold_Amount") <$> g)) ]}.

(** [df[(df["Status"] == "Sold") & (df["Owner_Name"].isin(selected_owners))]
      .groupby("Owner_Name", as_index=False)
      .agg(Sold_Plots=("Plot_Number", "count"),
           Total_Sold_Amount=("Sold_Amount", "sum"))
      .rename(columns={"Owner_Name": "Owner"})] *)
Definition sold_agg (df : DataFrame) (selected_owners : list string)
  : result DataFrame :=
  status ← getitem df "Status";
  owner ← getitem df "Owner_Name";
  let sold := loc df ((eq_str "Sold" <$> status) &&& (isin selected_owners <$> owner)) in
  _ ← getitem sold "Plot_Number";
  _ ← getitem sold "Sold_Amount";
  mret {| columns := ["Owner"; "Sold_Plots"; "Total_Sold_Amount"];
          rows := agg (rows sold) <$> group_keys (rows sold) |}.

(** [pd.DataFrame({"Owner": selected_owners})] *)
Definition base (selected_owners : list string) : DataFrame :=
  {| columns := ["Owner"]; rows := (λ o, {[ "Owner" := Str o ]}) <$> selected_owners |}.

(** [left.merge(right, on="Owner", how="left")]: every row of [left], in
    order, joined with each row of [right] that has its key; a row with
    no match keeps missing values in the columns of [right]. *)
Definition same_owner (l r : Row) : bool :=
  match at_ l "Owner", at_ r "Owner" with
  | Str a, Str b => bool_decide (a = b)
  | _, _ => false
  end.

(** A row of [left] extended with the columns it gains from the join. *)
Definition join_row (new_cols : list string) (l : Row) (value : string → cell)
  : Row :=
  foldr (λ c row, <[c := value c]> row) l new_cols.

Definition merge_row (right : DataFrame) (new_cols : list string) (l : Row)
  : list Row :=
  match List.filter (same_owner l) (rows right) with
  | [] => [join_row new_cols l (λ _, NaN)]
  | matches => (λ r, join_row new_cols l (at_ r)) <$> matches
  end.

Definition merge_left (left right : DataFrame) : DataFrame :=
  let new_cols := List.filter (λ c, bool_decide (c ∉ columns left)) (columns right) in
  {| columns := columns left ++ new_cols;
     rows := l ← rows left; merge_row right new_cols l |}.

(** [pd.concat([a, b], ignore_index=True)] for frames with the same
    columns. *)
Definition concat (a b : DataFrame) : DataFrame :=
  {| columns := columns a; rows := rows a ++ rows b |}.

(** The rows [sold_agg] groups: sold, and of a ticked owner. *)
Definition sold_rows (df : DataFrame) (selected_owners : list string) : list Row :=
  List.filter (λ r, eq_str "Sold" (at_ r "Status")
                    && isin selected_owners (at_ r "Owner_Name")) (rows df).


(** The table before its amounts are formatted for display.  The counts
    are whole numbers, on which [astype(int)] and [int(...)] change
    nothing. *)
Definition summary (total_label : string) (df : DataFrame)
    (selected_owners : list string) : result DataFrame :=
  sold_agg ← sold_agg df selected_owners;
  let summary := merge_left (base selected_owners) sold_agg in
  sold_plots ← getitem summary "Sold_Plots";
  let summary := setitem summary "Sold_Plots" (fillna (int 0) <$> sold_plots) in
  amount ← getitem summary "Total_Sold_Amount";
  let summary := setitem summary "Total_Sold_Amount" (fillna (int 0) <$> amount) in
  sold_plots ← getitem summary "Sold_Plots";
  amount ← getitem summary "Total_Sold_Amount";
  let total_row :=
    {| columns := ["Owner"; "Sold_Plots"; "Total_Sold_Amount"];
       rows := [ {[ "Owner" := Str total_label;
                    "Sold_Plots" := Num (series_sum sold_plots);
                    "Total_Sold_Amount" := Num (series_sum amount) ]} ] |} in
  mret (concat summary total_row).

(** ** app.py: percentage coordinates, one sheet *)

Module App.
Section Script.
Context `{PandasText}.

Definition Y_STRETCH : Q := 1.75.

(** [load_data], from the frame [pd.read_csv] returned. *)
Definition load_data (df : DataFrame) : result DataFrame :=
  s ← getitem df "Plot_Number";
  let df := setitem df "Plot_Number" (astype_str <$> s) in
  s ← getitem df "Plot_Size";
  let df := setitem df "Plot_Size" (to_numeric <$> s) in
  s ← getitem df "Sold_Amount";
  let df := setitem df "Sold_Amount" (fillna (int 0) <$> (to_numeric <$> s)) in
  s ← getitem df "X_pct";
  let df := setitem df "X_pct" (mul (3742 / 4425) <$> (to_numeric <$> s)) in
  s ← getitem df "Y_pct";
  let df := setitem df "Y_pct" (mul Y_STRETCH <$> (to_numeric <$> s)) in
  s ← getitem df "Sold_Date";
  let df := setitem df "Sold_Date" (to_datetime <$> s) in
  mret df.

(** What [load_data] does to one row, statement by statement. *)
Definition load_row (r : Row) : Row :=
  assign "Sold_Date" to_datetime
    (assign "Y_pct" (mul Y_STRETCH ∘ to_numeric)
       (assign "X_pct" (mul (3742 / 4425) ∘ to_numeric)
          (assign "Sold_Amount" (fillna (int 0) ∘ to_numeric)
             (assign "Plot_Size" to_numeric
                (assign "Plot_Number" astype_str r))))).

Definition summary : DataFrame → list string → result DataFrame :=
  summary "TOTAL".

(** The mask of [df_filtered], read on one row. *)
Definition keep (start_date end_date : Z) (selected_owners : list string)
    (r : Row) : bool :=
  (isna (at_ r "Sold_Date")
   || at_least (Timestamp start_date) (at_ r "Sold_Date")
      && at_most (Timestamp end_date) (at_ r "Sold_Date"))
  && isin selected_owners (at_ r "Owner_Name").

(** [df_filtered], for the slider's dates and the ticked owners. *)
Definition df_filtered (df : DataFrame) (start_date end_date : Z)
    (selected_owners : list string) : result DataFrame :=
  sold_date ← getitem df "Sold_Date";
  owner ← getitem df "Owner_Name";
  mret (loc df (((isna <$> sold_date) |||
                 ((at_least (Timestamp start_date) <$> sold_date) &&&
                  (at_most (Timestamp end_date) <$> sold_date))) &&&
                (isin selected_owners <$> owner))).

(** [size=df_filtered["Plot_Size"] / 40] *)
Definition marker_size (df_filtered : DataFrame) : result Series :=
  s ← getitem df_filtered "Plot_Size";
  mret (mul (/ 40) <$> (s : Series)).
End Script.
End App.

(** ** app_v2.py: pixel coordinates, one sheet *)

Module AppV2.
Section Script.
Context `{PandasText}.

Definition load_data (df : DataFrame) : result DataFrame :=
  s ← getitem df "Plot_Number";
  let df := setitem df "Plot_Number" (astype_str <$> s) in
  s ← getitem df "Plot_Size";
  let df := setitem df "Plot_Size" (to_numeric <$> s) in
  s ← getitem df "Sold_Amount";
  let df := setitem df "Sold_Amount" (fillna (int 0) <$> (to_numeric <$> s)) in
  s ← getitem df "X_pixel";
  let df := setitem df "X_pixel" (to_numeric <$> s) in
  s ← getitem df "Y_pixel";
  let df := setitem df "Y_pixel" (to_numeric <$> s) in
  s ← getitem df "Sold_Date";
  let df := setitem df "Sold_Date" (to_datetime <$> s) in
  mret df.

(** What [load_data] does to one row, statement by statement. *)
Definition load_row (r : Row) : Row :=
  assign "Sold_Date" to_datetime
    (assign "Y_pixel" to_numeric
       (assign "X_pixel" to_numeric
          (assign "Sold_Amount" (fillna (int 0) ∘ to_numeric)
             (assign "Plot_Size" to_numeric
                (assign "Plot_Number" astype_str r))))).

(** Image coordinates to plot coordinates. *)
Definition plot_coords (img_height : Z) (df : DataFrame) : result DataFrame :=
  x ← getitem df "X_pixel";
  let df := setitem df "X_plot" x in
  y ← getitem df "Y_pixel";
  let df := setitem df "Y_plot" (rsub (inject_Z img_height) <$> y) in
  mret df.

Definition summary : DataFrame → list string → result DataFrame :=
  summary "TOTAL".

(** The mask of [df_filtered], read on one row. *)
Definition keep (start_date end_date : Z) (selected_owners : list string)
    (r : Row) : bool :=
  (isna (at_ r "Sold_Date")
   || at_least (Timestamp start_date) (at_ r "Sold_Date")
      && at_most (Timestamp end_date) (at_ r "Sold_Date"))
  && isin selected_owners (at_ r "Owner_Name").

Definition df_filtered (df : DataFrame) (start_date end_date : Z)
    (selected_owners : list string) : result DataFrame :=
  sold_date ← getitem df "Sold_Date";
  owner ← getitem df "Owner_Name";
  mret (loc df (((isna <$> sold_date) |||
                 ((at_least (Timestamp start_date) <$> sold_date) &&&
                  (at_most (Timestamp end_date) <$> sold_date))) &&&
                (isin selected_owners <$> owner))).

(** [size=df_filtered["Plot_Size"] / 75] *)
Definition marker_size (df_filtered : DataFrame) : result Series :=
  s ← getitem df_filtered "Plot_Size";
  mret (mul (/ 75) <$> (s : Series)).
End Script.
End AppV2.

(** ** app_multi.py: pixel coordinates, one tab per sheet *)

Module AppMulti.

(** The values read from the controls of a tab. *)
Record Widgets : Type := {
  start_date : Z;
  end_date : Z;
  min_size : Q;
  max_size : Q;
  include_unsold : bool;
  selected_owners : list string
}.

Definition required_cols : list string :=
  ["Plot_Number"; "Plot_Size"; "Sold_Amount"; "X_pixel"; "Y_pixel";
   "Sold_Date"; "Owner_Name"; "Status"].

(** [[col for col in required_cols if col not in df.columns]] *)
Definition missing_cols (df : DataFrame) : list string :=
  List.filter (λ col, bool_decide (col ∉ columns df)) required_cols.

(** The handler [except Exception] around the body of [load_data]: it
    reports the exception and stops the script.  The stop raised after
    the report of missing columns is not an [Exception] and passes
    through. *)
Definition except_Exception {A} (body : result A) : result A :=
  match body with
  | Raise (KeyError c) => Raise (LoadFailed (KeyError c))
  | _ => body
  end.

Section Script.
Context `{PandasText}.

(** [load_data], from the frame [pd.read_csv] returned;
    [SchemaError] stands for the report
    ["Missing columns in Google Sheet: ..."] followed by [st.stop()]. *)
Definition load_data (df : DataFrame) : result DataFrame :=
  except_Exception (
    if missing_cols df is _ :: _ then Raise (SchemaError (missing_cols df)) else
    s ← getitem df "Plot_Number";
    let df := setitem df "Plot_Number" (astype_str <$> s) in
    s ← getitem df "Plot_Size";
    let df := setitem df "Plot_Size" (to_numeric <$> s) in
    s ← getitem df "Sold_Amount";
    let df := setitem df "Sold_Amount" (fillna (int 0) <$> (to_numeric <$> s)) in
    s ← getitem df "X_pixel";
    let df := setitem df "X_pixel" (to_numeric <$> s) in
    s ← getitem df "Y_pixel";
    let df := setitem df "Y_pixel" (to_numeric <$> s) in
    s ← getitem df "Sold_Date";
    let df := setitem df "Sold_Date" (to_datetime <$> s) in
    mret df).

(** What [load_data] does to one row, statement by statement. *)
Definition load_row (r : Row) : Row :=
  assign "Sold_Date" to_datetime
    (assign "Y_pixel" to_numeric
       (assign "X_pixel" to_numeric
          (assign "Sold_Amount" (fillna (int 0) ∘ to_numeric)
             (assign "Plot_Size" to_numeric
                (assign "Plot_Number" astype_str r))))).
End Script.

(** *** [render_dashboard] *)

(** Image coordinates to plot coordinates. *)
Definition plot_coords (img_height : Z) (df : DataFrame) : result DataFrame :=
  x ← getitem df "X_pixel";
  let df := setitem df "X_plot" x in
  y ← getitem df "Y_pixel";
  let df := setitem df "Y_plot" (rsub (inject_Z img_height) <$> y) in
  mret df.

(** What [plot_coords] does to one row. *)
Definition plot_row (img_height : Z) (r : Row) : Row :=
  <["Y_plot" := rsub (inject_Z img_height) (at_ r "Y_pixel")]>
    (<["X_plot" := at_ r "X_pixel"]> r).

Definition date_filter (df : DataFrame) (w : Widgets) : result (list bool) :=
  sold_date ← getitem df "Sold_Date";
  mret (((λ b, b && include_unsold w) <$> (isna <$> (sold_date : Series))) |||
        ((at_least (Timestamp (start_date w)) <$> sold_date) &&&
         (at_most (Timestamp (end_date w)) <$> sold_date))).

Definition owner_filter (df : DataFrame) (w : Widgets) : result (list bool) :=
  owner ← getitem df "Owner_Name";
  mret (isin (selected_owners w) <$> (owner : Series)).

Definition size_filter (df : DataFrame) (w : Widgets) : result (list bool) :=
  plot_size ← getitem df "Plot_Size";
  mret ((at_least (Num (min_size w)) <$> (plot_size : Series)) &&&
        (at_most (Num (max_size w)) <$> plot_size)).

(** The three masks, read on one row. *)
Definition date_clause (w : Widgets) (r : Row) : bool :=
  isna (at_ r "Sold_Date") && include_unsold w
  || at_least (Timestamp (start_date w)) (at_ r "Sold_Date")
     && at_most (Timestamp (end_date w)) (at_ r "Sold_Date").

Definition owner_clause (w : Widgets) (r : Row) : bool :=
  isin (selected_owners w) (at_ r "Owner_Name").

Definition size_clause (w : Widgets) (r : Row) : bool :=
  at_least (Num (min_size w)) (at_ r "Plot_Size")
  && at_most (Num (max_size w)) (at_ r "Plot_Size").

Definition df_filtered (df : DataFrame) (w : Widgets) : result DataFrame :=
  date_filter ← date_filter df w;
  owner_filter ← owner_filter df w;
  size_filter ← size_filter df w;
  mret (loc df (date_filter &&& owner_filter &&& size_filter)).

(** Marker diameters; [None] is a missing diameter. *)
Definition min_marker : R := 12.
Definition max_marker : R := 40.

Definition marker_sizes (df_filtered : DataFrame) : result (list (option R)) :=
  if bool_decide (0 < len df_filtered) then
    plot_size ← getitem df_filtered "Plot_Size";
    match series_max plot_size, series_min plot_size with
    | Some hi, Some lo =>
        let size_range_val := (hi - lo)%Q in
        if Qlt_le_dec 0 size_range_val then
          mret ((λ c, match c with
                      | Num p =>
                          let normalized_size := ((p - lo) / size_range_val)%Q in
                          Some (min_marker + sqrt (Q2R normalized_size) * (max_marker - min_marker))%R
                      | _ => None
                      end) <$> plot_size)
        else mret (replicate (len df_filtered) (Some 30%R))
    | _, _ => mret (replicate (len df_filtered) (Some 30%R))
    end
  else mret [].

Definition summary : DataFrame → list string → result DataFrame :=
  summary "**TOTAL**".

(** What one tab hands to the figure and to the table. *)
Record Dashboard : Type := {
  points : DataFrame;
  diameters : list (option R);
  sold_summary : DataFrame
}.

(** [render_dashboard] for given control values; [None] is the early
    return taken when no row has a sold date. *)
Definition render_dashboard (df : DataFrame) (img_height : Z) (w : Widgets)
  : result (option Dashboard) :=
  df ← plot_coords img_height df;
  sold_date ← getitem df "Sold_Date";
  if bool_decide (series_count sold_date = 0) then mret None else
  df_filtered ← df_filtered df w;
  marker_sizes ← marker_sizes df_filtered;
  summary ← summary df (selected_owners w);
  mret (Some {| points := df_filtered; diameters := marker_sizes;
                sold_summary := summary |}).
End AppMulti.

(** ** A text model for worked examples

    Unsigned decimal integers as numbers, and [DD/MM/YY] dates mapped to
    an ordinal that grows with the date ([%y] reads 00-68 as 20xx and
    69-99 as 19xx). *)

Module SampleText.
Definition digit (a : Ascii.ascii) : option Z :=
  let n := (Z.of_N (Ascii.N_of_ascii a) - 48)%Z in
  if ((0 <=? n) && (n <=? 9))%Z then Some n else None.

Fixpoint digits (acc : Z) (s : string) : option Z :=
  match s with
  | EmptyString => Some acc
  | String a s' => d ← digit a; digits (10 * acc + d)%Z s'
  end.

Definition number (s : string) : option Q :=
  match s with
  | EmptyString => None
  | _ => inject_Z <$> digits 0 s
  end.

Definition datetime (s : string) : option Z :=
  match s with
  | String d1 (String d2 (String "/"%char (String m1 (String m2 (String "/"%char
      (String y1 (String y2 EmptyString))))))) =>
      d ← digits 0 (String d1 (String d2 EmptyString));
      m ← digits 0 (String m1 (String m2 EmptyString));
      y ← digits 0 (String y1 (String y2 EmptyString));
      if ((1 <=? d) && (d <=? 31) && (1 <=? m) && (m <=? 12))%Z
      then let year := (if y <? 69 then 2000 + y else 1900 + y)%Z in
           Some ((year * 12 + (m - 1)) * 31 + (d - 1))%Z
      else None
  | _ => None
  end.

#[global] Instance text : PandasText := {
  parse_number := number;
  parse_datetime := datetime;
  str_number q := pretty (Qnum q) +:+ (if decide (Qden q = 1%positive) then "" else "/" +:+ pretty (Zpos (Qden q)));
  str_timestamp t := pretty t
}.
End SampleText.

(** ** Sample sheets *)

Module Samples.
(** A sheet with pixel coordinates; the second plot is unsold and one of
    its coordinates is blank. *)
Definition pixel_sheet : DataFrame :=
  {| columns := ["Plot_Number"; "Plot_Size"; "Sold_Amount"; "X_pixel";
                 "Y_pixel"; "Sold_Date"; "Owner_Name"; "Status"];
     rows := [
       list_to_map [("Plot_Number", Num 1); ("Plot_Size", Str "1200");
                    ("Sold_Amount", Str "100000"); ("X_pixel", Num 10);
                    ("Y_pixel", Num 20); ("Sold_Date", Str "15/01/24");
                    ("Owner_Name", Str "S.V. INFRA"); ("Status", Str "Sold")];
       list_to_map [("Plot_Number", Num 2); ("Plot_Size", Str "n/a");
                    ("Sold_Amount", NaN); ("X_pixel", Num 30);
                    ("Y_pixel", NaN); ("Sold_Date", NaN);
                    ("Owner_Name", Str "SAUKHYADA INFRA LLP");
                    ("Status", Str "Available")] ] |}.

(** The same sheet without its [Sold_Date] and [Status] columns. *)
Definition short_sheet : DataFrame :=
  {| columns := ["Plot_Number"; "Plot_Size"; "Sold_Amount"; "X_pixel";
                 "Y_pixel"; "Owner_Name"];
     rows := (λ r, delete "Sold_Date" (delete "Status" r)) <$> rows pixel_sheet |}.

(** A sheet with percentage coordinates. *)
Definition pct_sheet : DataFrame :=
  {| columns := ["Plot_Number"; "Plot_Size"; "Sold_Amount"; "X_pct";
                 "Y_pct"; "Sold_Date"; "Owner_Name"; "Status"];
     rows := [
       list_to_map [("Plot_Number", Num 1); ("Plot_Size", Str "1200");
                    ("Sold_Amount", Str "100000"); ("X_pct", Num 50);
                    ("Y_pct", Num 100); ("Sold_Date", Str "15/01/24");
                    ("Owner_Name", Str "S.V. INFRA"); ("Status", Str "Sold")];
       list_to_map [("Plot_Number", Num 2); ("Plot_Size", Str "n/a");
                    ("Sold_Amount", NaN); ("X_pct", Num 0);
                    ("Y_pct", NaN); ("Sold_Date", NaN);
                    ("Owner_Name", Str "SAUKHYADA INFRA LLP");
                    ("Status", Str "Available")] ] |}.

(** A loaded frame: two sales of one owner, in January and in February
    2024, and two unsold plots of another, one without a size. *)
Definition sales : DataFrame :=
  {| columns := ["Plot_Number"; "Plot_Size"; "Sold_Amount"; "X_pixel";
                 "Y_pixel"; "Sold_Date"; "Owner_Name"; "Status"];
     rows := [
       list_to_map [("Plot_Number", Str "1"); ("Plot_Size", Num 1000);
                    ("Sold_Amount", Num 100000); ("X_pixel", Num 10);
                    ("Y_pixel", Num 20); ("Sold_Date", Timestamp 752942);
                    ("Owner_Name", Str "S.V. INFRA"); ("Status", Str "Sold")];
       list_to_map [("Plot_Number", Str "2"); ("Plot_Size", Num 2000);
                    ("Sold_Amount", Num 50000); ("X_pixel", Num 30);
                    ("Y_pixel", Num 40); ("Sold_Date", Timestamp 752959);
                    ("Owner_Name", Str "S.V. INFRA"); ("Status", Str "Sold")];
       list_to_map [("Plot_Number", Str "3"); ("Plot_Size", Num 4000);
                    ("Sold_Amount", Num 0); ("X_pixel", Num 50);
                    ("Y_pixel", Num 60); ("Sold_Date", NaN);
                    ("Owner_Name", Str "SAUKHYADA INFRA LLP");
                    ("Status", Str "Available")];
       list_to_map [("Plot_Number", Str "4"); ("Plot_Size", NaN);
                    ("Sold_Amount", Num 0); ("X_pixel", Num 70);
                    ("Y_pixel", Num 80); ("Sold_Date", NaN);
                    ("Owner_Name", Str "SAUKHYADA INFRA LLP");
                    ("Status", Str "Available")] ] |}.

(** The controls set to January 2024, every size, both owners. *)
Definition january : AppMulti.Widgets :=
  {| AppMulti.start_date := 752928; AppMulti.end_date := 752958;
     AppMulti.min_size := 1000; AppMulti.max_size := 4000;
     AppMulti.include_unsold := true;
     AppMulti.selected_owners := ["S.V. INFRA"; "SAUKHYADA INFRA LLP"] |}.

Definition january_sold_only : AppMulti.Widgets :=
  {| AppMulti.start_date := 752928; AppMulti.end_date := 752958;
     AppMulti.min_size := 1000; AppMulti.max_size := 4000;
     AppMulti.include_unsold := false;
     AppMulti.selected_owners := ["S.V. INFRA"; "SAUKHYADA INFRA LLP"] |}.

(** Every sale of 2024 and every unsold plot, whatever the size. *)
Definition year_2024 : AppMulti.Widgets :=
  {| AppMulti.start_date := 752928; AppMulti.end_date := 753299;
     AppMulti.min_size := 1000; AppMulti.max_size := 4000;
     AppMulti.include_unsold := true;
     AppMulti.selected_owners := ["S.V. INFRA"; "SAUKHYADA INFRA LLP"] |}.

(** January 2024, one owner ticked. *)
Definition january_one_owner : AppMulti.Widgets :=
  {| AppMulti.start_date := 752928; AppMulti.end_date := 752958;
     AppMulti.min_size := 1000; AppMulti.max_size := 4000;
     AppMulti.include_unsold := true;
     AppMulti.selected_owners := ["S.V. INFRA"] |}.

(** The plots of sizes 1000, 2000 and 4000, and the first of them alone. *)
Definition three_sizes : DataFrame := loc sales [true; true; true; false].
Definition one_plot : DataFrame := loc sales [true; false; false; false].
End Samples.

(** ** Legend, colours and header

    Statements the three scripts share, outside the parts above. *)

(** An owner palette: a dictionary literal from owner to colour, kept as
    its items in insertion order. *)
Abbreviation Palette := (list (string * string)).

(** [owner_palette.get(owner)] *)
Definition palette_get (owner_palette : Palette) (owner : string) : option string :=
  snd <$> List.find (λ item, bool_decide (item.1 = owner)) owner_palette.

(** [s.map(owner_palette)] on one value: a value that is not a key maps
    to missing. *)
Definition map_palette (owner_palette : Palette) (c : cell) : cell :=
  match c with
  | Str s => from_option Str NaN (palette_get owner_palette s)
  | _ => NaN
  end.

(** [df["Owner_Color"] = df["Owner_Name"].map(owner_palette).fillna("#999999")] *)
Definition owner_color (df : DataFrame) (owner_palette : Palette)
  : result DataFrame :=
  owner ← getitem df "Owner_Name";
  mret (setitem df "Owner_Color"
          (fillna (Str "#999999") <$> (map_palette owner_palette <$> owner))).

(** What [owner_color] does to one row. *)
Definition color_row (owner_palette : Palette) (r : Row) : Row :=
  <["Owner_Color" := fillna (Str "#999999")
                       (map_palette owner_palette (at_ r "Owner_Name"))]> r.

(** [s.value_counts().to_dict()], restricted to its string keys, the only
    ones the legend looks up. *)
Definition value_counts (s : Series) : gmap string nat :=
  foldl (λ counts c,
           match c with
           | Str k => <[k := S (default 0 (counts !! k))]> counts
           | _ => counts
           end) ∅ s.

Definition owner_counts (df : DataFrame) : result (gmap string nat) :=
  owner ← getitem df "Owner_Name";
  mret (value_counts owner).

(** The loop over [owner_palette.items()] that collects the ticked
    owners; [checkbox] is the state of each owner's box. *)
Definition selected_owners (owner_palette : Palette) (checkbox : string → bool)
  : list string :=
  foldl (λ selected item, if checkbox item.1 then (selected ++ [item.1])%list else selected)
    [] owner_palette.

(** [total_land], [sold_land] and [sold_pct] of the page title. *)
Definition total_land (df : DataFrame) : result Q :=
  plot_size ← getitem df "Plot_Size";
  mret (series_sum plot_size).

Definition sold_land (df : DataFrame) : result Q :=
  status ← getitem df "Status";
  plot_size ← getitem (loc df (eq_str "Sold" <$> status)) "Plot_Size";
  mret (series_sum plot_size).

Definition sold_pct (df : DataFrame) : result Q :=
  total_land ← total_land df;
  sold_land ← sold_land df;
  mret (if Qeq_bool total_land 0 then 0 else sold_land / total_land * 100)%Q.

(** [sold_dates = df["Sold_Date"].dropna()], [min_date] and [max_date];
    the extremes are missing when no row has a date. *)
Definition dropna (s : Series) : Series := List.filter (λ c, negb (isna c)) s.

Abbreviation fmin_date :=
  (λ (acc : option Z) (c : cell),
     match c, acc with
     | Timestamp t, Some m => Some (if (m <=? t)%Z then m else t)
     | Timestamp t, None => Some t
     | _, _ => acc
     end).

Abbreviation fmax_date :=
  (λ (acc : option Z) (c : cell),
     match c, acc with
     | Timestamp t, Some m => Some (if (t <=? m)%Z then m else t)
     | Timestamp t, None => Some t
     | _, _ => acc
     end).

Definition min_date (sold_dates : Series) : option Z := foldl fmin_date None sold_dates.
Definition max_date (sold_dates : Series) : option Z := foldl fmax_date None sold_dates.

(** [sold = df_filtered[df_filtered["Status"] == "Sold"]], the rows drawn
    with a cross. *)
Definition sold (df_filtered : DataFrame) : result DataFrame :=
  status ← getitem df_filtered "Status";
  mret (loc df_filtered (eq_str "Sold" <$> status)).

(** The quick statistics of a tab in app_multi.py. *)
Record QuickStats : Type := {
  total_plots : nat;
  sold_plots : nat;
  unsold_plots : nat;
  sold_land_area : Q;
  remaining_land_area : Q
}.

Definition quick_stats (df : DataFrame) : result QuickStats :=
  status ← getitem df "Status";
  let sold := loc df (eq_str "Sold" <$> status) in
  sold_size ← getitem sold "Plot_Size";
  plot_size ← getitem df "Plot_Size";
  let total_plots := len df in
  let sold_plots := len sold in
  let sold_land_area := series_sum sold_size in
  mret {| total_plots := total_plots;
          sold_plots := sold_plots;
          unsold_plots := total_plots - sold_plots;
          sold_land_area := sold_land_area;
          remaining_land_area := (series_sum plot_size - sold_land_area)%Q |}.

(** ** More sample data *)

Module Legend.
(** The palette of app.py, app_v2.py and of the first tab. *)
Definition owner_palette : Palette :=
  [("BRINDAVAN ASSETS HOLDINGS", "#1f77b4");
   ("SAUKHYADA INFRA LLP", "#ff7f0e");
   ("S.V. INFRA", "#2ca02c")].

(** Every box ticked, as when the page opens. *)
Definition all_ticked : string → bool := λ _, true.

(** One owner unticked. *)
Definition without_sv : string → bool :=
  λ owner, negb (bool_decide (owner = "S.V. INFRA")).
End Legend.

Module Legend2.
(** The first tab as it opens on the sample frame: every box ticked, the
    sliders on the two sold dates and on every size. *)
Definition opening : AppMulti.Widgets :=
  {| AppMulti.start_date := 752942; AppMulti.end_date := 752959;
     AppMulti.min_size := 1000; AppMulti.max_size := 4000;
     AppMulti.include_unsold := true;
     AppMulti.selected_owners :=
       selected_owners Legend.owner_palette (λ _, true) |}.
End Legend2.



(** ** Column types after loading *)


(** ** Fetching the sheet (app_multi.py) *)

Module Fetch.
Definition export_url : string :=
  "https://docs.google.com/spreadsheets/d/"
  +:+ "1ADwkUAqU01wxVoYEnJh2hhZVdeqaFcaOAgeUZP5P-kw"
  +:+ "/export?format=csv".

(** The address of a sheet; a missing or empty [sheet_gid] selects the
    first sheet. *)
Definition url (sheet_gid : option string) : string :=
  match sheet_gid with
  | None | Some EmptyString => export_url
  | Some gid => export_url +:+ "&gid=" +:+ gid
  end.

(** What one call of [urlopen] followed by [response.read()] comes to:
    the bytes, one of the two exceptions the loop retries on, or any
    other exception. *)
Inductive response : Type :=
  | Body (csv_bytes : string)
  | URLError (reason : string)
  | TimeoutError (reason : string)
  | OtherException (text : string).

Definition retried (r : response) : option string :=
  match r with
  | URLError e | TimeoutError e => Some e
  | _ => None
  end.

(** How the loop ends: with the bytes, with the exception
    ["Failed after 3 attempts ..."], with an exception it does not
    catch, or (for an empty range only) without [csv_bytes] bound. *)
Inductive ending : Type :=
  | CsvBytes (csv_bytes : string)
  | FailedAfter (attempts : nat) (last_error : string)
  | Uncaught (text : string)
  | Unbound.

Record Fetched : Type := {
  warnings : list nat;
  calls : nat;
  outcome : ending
}.

Definition max_retries : nat := 3.

(** The body of [for attempt in range(max_retries)]; [urlopen n] is the
    outcome of the call made at attempt [n], and a warning is kept as the
    attempt number it reports. *)
Fixpoint retry (urlopen : nat → response) (range : list nat)
    (warned : list nat) (called : nat) : Fetched :=
  match range with
  | [] => {| warnings := warned; calls := called; outcome := Unbound |}
  | attempt :: rest =>
      match urlopen attempt with
      | Body csv_bytes =>
          {| warnings := warned; calls := S called; outcome := CsvBytes csv_bytes |}
      | URLError e | TimeoutError e =>
          if bool_decide (attempt < max_retries - 1)
          then retry urlopen rest (warned ++ [attempt + 1]) (S called)
          else {| warnings := warned; calls := S called;
                  outcome := FailedAfter max_retries e |}
      | OtherException text =>
          {| warnings := warned; calls := S called; outcome := Uncaught text |}
      end
  end.

Definition fetch (urlopen : nat → response) : Fetched :=
  retry urlopen (seq 0 max_retries) [] 0.
End Fetch.


(** ** [load_data] of app_multi.py, from the network to the typed frame *)

Module Sheet.
(** The exception the outer handler of [load_data] reports before it
    stops the script. *)
Inductive failure : Type :=
  | RetriesExhausted (attempts : nat) (last_error : string)
  | Raised (text : string)
  | NoBytes
  | InFrame (e : exn).

(** The two ways [load_data] stops the script instead of returning. *)
Inductive stopped : Type :=
  | MissingColumns (missing_cols : list string)
  | FailedToLoad (cause : failure).

Section Script.
Context `{PandasText}.

(** [load_data(sheet_gid)]: [urlopen] stands for the calls made on
    [url(sheet_gid)] and [read_csv] for [pd.read_csv], which returns a
    frame or raises.  The result is the list of warnings shown, and the
    frame returned or the report after which the script stops. *)
Definition load_data (urlopen : nat → Fetch.response)
    (read_csv : string → string + DataFrame) : list nat * (stopped + DataFrame) :=
  let fetched := Fetch.fetch urlopen in
  (Fetch.warnings fetched,
   match Fetch.outcome fetched with
   | Fetch.FailedAfter attempts e => inl (FailedToLoad (RetriesExhausted attempts e))
   | Fetch.Uncaught text => inl (FailedToLoad (Raised text))
   | Fetch.Unbound => inl (FailedToLoad NoBytes)
   | Fetch.CsvBytes csv_bytes =>
       match read_csv csv_bytes with
       | inl text => inl (FailedToLoad (Raised text))
       | inr df =>
           match AppMulti.load_data df with
           | Ok df => inr df
           | Raise (SchemaError missing_cols) => inl (MissingColumns missing_cols)
           | Raise (LoadFailed e) => inl (FailedToLoad (InFrame e))
           | Raise (KeyError c) => inl (FailedToLoad (InFrame (KeyError c)))
           end
       end
   end).
End Script.
End Sheet.

(** * Properties *)

(** Membership of a column name in the index of a given frame. *)
Ltac column_present := apply (bool_decide_unpack _); exact I.

(** ** Frames, items and masks *)

Lemma getitem_Ok (df : DataFrame) (c : string) :
  c ∈ columns df → getitem df c = Ok ((λ r, at_ r c) <$> rows df).
Proof. intros Hc. unfold getitem. by rewrite decide_True. Qed.

Lemma getitem_Raise (df : DataFrame) (c : string) :
  c ∉ columns df → getitem df c = Raise (KeyError c).
Proof. intros Hc. unfold getitem. by rewrite decide_False. Qed.

Lemma getitem_inv (df : DataFrame) (c : string) (s : Series) :
  getitem df c = Ok s → c ∈ columns df ∧ s = (λ r, at_ r c) <$> rows df.
Proof.
  unfold getitem. case_decide; [|done]. intros [= <-]. done.
Qed.

Lemma columns_setitem (df : DataFrame) (c c' : string) (s : Series) :
  c' ∈ columns df → c' ∈ columns (setitem df c s).
Proof.
  intros Hc'. simpl. case_decide; [done|]. apply elem_of_app. by left.
Qed.

Lemma columns_setitem_inv (df : DataFrame) (c c' : string) (s : Series) :
  c' ∈ columns (setitem df c s) → c' ∈ columns df ∨ c' = c.
Proof.
  simpl. case_decide; [by left|].
  rewrite elem_of_app, list_elem_of_singleton. done.
Qed.

Lemma columns_setitem_old (df : DataFrame) (c : string) (s : Series) :
  c ∈ columns df → columns (setitem df c s) = columns df.
Proof. intros Hc. simpl. by rewrite decide_True. Qed.

Lemma imap_fmap_insert (c : string) (g : Row → cell) (l : list Row) :
  imap (λ i r, <[c := default NaN ((g <$> l) !! i)]> r) l
  = (λ r, <[c := g r]> r) <$> l.
Proof.
  apply list_eq. intros i.
  rewrite list_lookup_imap, !list_lookup_fmap.
  by destruct (l !! i).
Qed.

(** Assigning a column computed row by row from the frame itself. *)
Lemma rows_setitem_fmap (df : DataFrame) (c : string) (g : Row → cell) :
  rows (setitem df c (g <$> rows df)) = (λ r, <[c := g r]> r) <$> rows df.
Proof. simpl. apply imap_fmap_insert. Qed.

Lemma len_setitem (df : DataFrame) (c : string) (s : Series) :
  len (setitem df c s) = len df.
Proof. unfold len. simpl. apply length_imap. Qed.

Lemma at_insert (r : Row) (c : string) (v : cell) : at_ (<[c := v]> r) c = v.
Proof. unfold at_. by rewrite lookup_insert_eq. Qed.

Lemma at_insert_ne (r : Row) (c c' : string) (v : cell) :
  c ≠ c' → at_ (<[c := v]> r) c' = at_ r c'.
Proof. intros Hne. unfold at_. by rewrite lookup_insert_ne. Qed.

Lemma select_fmap {A} (p : A → bool) (l : list A) :
  select l (p <$> l) = List.filter p l.
Proof.
  induction l as [|x l IH]; [done|].
  csimpl. rewrite IH. done.
Qed.

Lemma mask_and_fmap {A} (p q : A → bool) (l : list A) :
  (p <$> l) &&& (q <$> l) = (λ x, p x && q x) <$> l.
Proof. induction l as [|x l IH]; [done|]. unfold mask_and in *. csimpl. by rewrite IH. Qed.

Lemma mask_or_fmap {A} (p q : A → bool) (l : list A) :
  (p <$> l) ||| (q <$> l) = (λ x, p x || q x) <$> l.
Proof. induction l as [|x l IH]; [done|]. unfold mask_or in *. csimpl. by rewrite IH. Qed.

Lemma filter_filter_same {A} (p : A → bool) (l : list A) :
  List.filter p (List.filter p l) = List.filter p l.
Proof.
  induction l as [|x l IH]; [done|].
  simpl. destruct (p x) eqn:Hp; [|done]. simpl. rewrite Hp. by rewrite IH.
Qed.

(** [df[c] = f(df[c])] on a frame that has the column. *)
Lemma setitem_assign (df : DataFrame) (c : string) (f : cell → cell) :
  c ∈ columns df →
  setitem df c (f <$> ((λ r, at_ r c) <$> rows df))
  = {| columns := columns df; rows := assign c f <$> rows df |}.
Proof.
  intros Hc. rewrite <- list_fmap_compose.
  unfold setitem. rewrite decide_True by done. f_equal.
  apply (imap_fmap_insert c (f ∘ (λ r, at_ r c))).
Qed.

Lemma setitem_assign_compose (df : DataFrame) (c : string) (f g : cell → cell) :
  c ∈ columns df →
  setitem df c (f <$> (g <$> ((λ r, at_ r c) <$> rows df)))
  = {| columns := columns df; rows := assign c (f ∘ g) <$> rows df |}.
Proof.
  intros Hc. rewrite <- (list_fmap_compose g f). by apply setitem_assign.
Qed.

Lemma at_assign (r : Row) (c : string) (f : cell → cell) :
  at_ (assign c f r) c = f (at_ r c).
Proof. apply at_insert. Qed.

Lemma at_assign_ne (r : Row) (c c' : string) (f : cell → cell) :
  c ≠ c' → at_ (assign c f r) c' = at_ r c'.
Proof. apply at_insert_ne. Qed.

(** ** [load_data] row by row *)

Section LoadData.
Context `{PandasText}.

Ltac load_step :=
  rewrite getitem_Ok by done; cbn [mbind result_bind];
  first [rewrite setitem_assign_compose by done
        |rewrite setitem_assign by done].

(** Either the column is there and the statement runs, or reading it
    raises and the goal's [Ok] is impossible. *)
Ltac load_case df c :=
  destruct (decide (c ∈ columns df));
  [load_step | rewrite getitem_Raise by done; done].

Lemma App_load_data_inv (df df' : DataFrame) :
  App.load_data df = Ok df' →
  df' = {| columns := columns df; rows := App.load_row <$> rows df |}.
Proof.
  unfold App.load_data.
  load_case df "Plot_Number". load_case df "Plot_Size".
  load_case df "Sold_Amount". load_case df "X_pct".
  load_case df "Y_pct". load_case df "Sold_Date".
  cbn [mret result_ret rows columns]. intros [= <-]. f_equal.
  rewrite <- !list_fmap_compose. done.
Qed.

Lemma AppV2_load_data_inv (df df' : DataFrame) :
  AppV2.load_data df = Ok df' →
  df' = {| columns := columns df; rows := AppV2.load_row <$> rows df |}.
Proof.
  unfold AppV2.load_data.
  load_case df "Plot_Number". load_case df "Plot_Size".
  load_case df "Sold_Amount". load_case df "X_pixel".
  load_case df "Y_pixel". load_case df "Sold_Date".
  cbn [mret result_ret rows columns]. intros [= <-]. f_equal.
  rewrite <- !list_fmap_compose. done.
Qed.

(** With its six columns in the sheet, [load_data] of app.py runs to its
    end. *)
Lemma App_load_data_Ok (df : DataFrame) :
  (∀ c, c ∈ ["Plot_Number"; "Plot_Size"; "Sold_Amount"; "X_pct"; "Y_pct";
             "Sold_Date"] → c ∈ columns df) →
  App.load_data df
  = Ok {| columns := columns df; rows := App.load_row <$> rows df |}.
Proof.
  intros Hcols. unfold App.load_data.
  do 6 (rewrite getitem_Ok by (apply Hcols; by apply (bool_decide_unpack _));
        cbn [mbind result_bind];
        first [rewrite setitem_assign_compose
                 by (apply Hcols; by apply (bool_decide_unpack _))
              |rewrite setitem_assign
                 by (apply Hcols; by apply (bool_decide_unpack _))]).
  cbn [mret result_ret rows columns]. f_equal. f_equal.
  rewrite <- !list_fmap_compose. done.
Qed.

Lemma elem_of_missing_cols (df : DataFrame) (c : string) :
  c ∈ AppMulti.missing_cols df ↔ c ∈ AppMulti.required_cols ∧ c ∉ columns df.
Proof.
  unfold AppMulti.missing_cols.
  rewrite !list_elem_of_In, filter_In, bool_decide_eq_true.
  by rewrite list_elem_of_In.
Qed.

Lemma missing_cols_nil (df : DataFrame) :
  AppMulti.missing_cols df = [] ↔ ∀ c, c ∈ AppMulti.required_cols → c ∈ columns df.
Proof.
  split.
  - intros Hnil c Hc. destruct (decide (c ∈ columns df)) as [|Hn]; [done|].
    assert (c ∈ AppMulti.missing_cols df) as Hin by by apply elem_of_missing_cols.
    rewrite Hnil in Hin. by apply not_elem_of_nil in Hin.
  - intros Hall. destruct (AppMulti.missing_cols df) as [|c m] eqn:Hm; [done|].
    assert (c ∈ AppMulti.missing_cols df) as Hin by (rewrite Hm; left).
    apply elem_of_missing_cols in Hin as [Hreq Hn]. destruct Hn. by apply Hall.
Qed.

(** With every required column in the sheet, the body of [load_data]
    runs to its end. *)
Lemma AppMulti_load_data_rows (df : DataFrame) :
  AppMulti.missing_cols df = [] →
  AppMulti.load_data df
  = Ok {| columns := columns df; rows := AppMulti.load_row <$> rows df |}.
Proof.
  intros Hm. unfold AppMulti.load_data. rewrite Hm.
  pose proof (proj1 (missing_cols_nil df) Hm) as Hall.
  assert (∀ c, c ∈ AppMulti.required_cols → c ∈ columns df) as Hreq by done.
  unfold AppMulti.required_cols in Hreq.
  do 6 (rewrite getitem_Ok by (apply Hreq; by apply (bool_decide_unpack _));
        cbn [mbind result_bind];
        first [rewrite setitem_assign_compose
                 by (apply Hreq; by apply (bool_decide_unpack _))
              |rewrite setitem_assign
                 by (apply Hreq; by apply (bool_decide_unpack _))]).
  cbn [mret result_ret rows columns AppMulti.except_Exception]. f_equal. f_equal.
  rewrite <- !list_fmap_compose. done.
Qed.

(** With a required column missing, nothing is coerced: the report
    lists the missing names and the script stops. *)
Lemma AppMulti_load_data_missing (df : DataFrame) :
  AppMulti.missing_cols df ≠ [] →
  AppMulti.load_data df = Raise (SchemaError (AppMulti.missing_cols df)).
Proof.
  intros Hm. unfold AppMulti.load_data.
  destruct (AppMulti.missing_cols df); done.
Qed.
End LoadData.

Example number_1200 : SampleText.number "1200" = Some (1200 # 1).
Proof. reflexivity. Qed.

Example number_text : SampleText.number "n/a" = None.
Proof. reflexivity. Qed.

Example datetime_order :
  SampleText.datetime "31/01/24" = Some 752958%Z ∧
  SampleText.datetime "01/02/24" = Some 752959%Z ∧
  SampleText.datetime "2024-02-01" = None.
Proof. repeat split; reflexivity. Qed.

(** ** Schema check and row count *)

Lemma Forall2_fmap_self {A B} (P : A → B → Prop) (f : A → B) (l : list A) :
  (∀ x, P x (f x)) → Forall2 P l (f <$> l).
Proof. intros HP. induction l; csimpl; constructor; auto. Qed.

Section Normalization.
Context `{PandasText}.

(** C3. [load_data] fails exactly when a required column is missing
    from the sheet: it then stops with the report that lists the missing
    names, in the order of [required_cols], and returns no frame;
    otherwise it returns a frame with as many rows as the sheet. *)
Theorem load_data_fails_iff_column_missing (df : DataFrame) :
  ((∃ e, AppMulti.load_data df = Raise e) ↔
   (∃ c, c ∈ AppMulti.required_cols ∧ c ∉ columns df))
  ∧ ((∃ c, c ∈ AppMulti.required_cols ∧ c ∉ columns df) →
     AppMulti.load_data df = Raise (SchemaError (AppMulti.missing_cols df))
     ∧ AppMulti.missing_cols df ≠ []
     ∧ ∀ c, c ∈ AppMulti.missing_cols df ↔
            c ∈ AppMulti.required_cols ∧ c ∉ columns df)
  ∧ ((∀ c, c ∈ AppMulti.required_cols → c ∈ columns df) →
     ∃ df', AppMulti.load_data df = Ok df' ∧ len df' = len df).
Proof.
  assert ((∃ c, c ∈ AppMulti.required_cols ∧ c ∉ columns df) →
          AppMulti.missing_cols df ≠ []) as Hsome.
  { intros (c & Hc & Hn) Hnil.
    apply (proj1 (missing_cols_nil df)) with (c := c) in Hnil; done. }
  assert ((∀ c, c ∈ AppMulti.required_cols → c ∈ columns df) →
          ∃ df', AppMulti.load_data df = Ok df' ∧ len df' = len df) as Hall.
  { intros Hreq. apply missing_cols_nil in Hreq.
    eexists. split; [by apply AppMulti_load_data_rows|].
    unfold len. simpl. apply length_fmap. }
  split; [split|split]; [| |intros Hex|done].
  - intros [e He].
    destruct (AppMulti.missing_cols df) as [|c m] eqn:Hm.
    + rewrite AppMulti_load_data_rows in He; done.
    + exists c. apply elem_of_missing_cols. rewrite Hm. left.
  - intros Hex. eexists. apply AppMulti_load_data_missing. auto.
  - split; [apply AppMulti_load_data_missing; auto|].
    split; [auto|]. apply elem_of_missing_cols.
Qed.
End Normalization.

Lemma load_data_fails_iff_column_missing_witness :
  ((∀ c, c ∈ AppMulti.required_cols → c ∈ columns Samples.pixel_sheet)
   ∧ ∃ df', AppMulti.load_data Samples.pixel_sheet = Ok df'
            ∧ len df' = len Samples.pixel_sheet)
  ∧ ((∃ c, c ∈ AppMulti.required_cols ∧ c ∉ columns Samples.short_sheet)
     ∧ AppMulti.load_data Samples.short_sheet
       = Raise (SchemaError ["Sold_Date"; "Status"])).
Proof.
  split.
  - assert (∀ c, c ∈ AppMulti.required_cols → c ∈ columns Samples.pixel_sheet)
      as Hreq by (intros c Hc; exact Hc).
    split; [exact Hreq|].
    exact (proj2 (proj2 (load_data_fails_iff_column_missing Samples.pixel_sheet)) Hreq).
  - assert (∃ c, c ∈ AppMulti.required_cols ∧ c ∉ columns Samples.short_sheet)
      as Hex.
    { exists "Status". split; apply (bool_decide_unpack _); vm_compute; exact I. }
    split; [exact Hex|].
    exact (proj1 (proj1 (proj2 (load_data_fails_iff_column_missing Samples.short_sheet)) Hex)).
Defined.

(** ** Coercion policies *)

Section Coercions.
Context `{PandasText}.

Ltac at_simpl :=
  unfold App.load_row, AppV2.load_row, AppMulti.load_row;
  repeat first [rewrite at_assign | rewrite at_assign_ne by done].

Lemma App_load_row_sold_amount (r : Row) :
  at_ (App.load_row r) "Sold_Amount"
  = fillna (int 0) (to_numeric (at_ r "Sold_Amount")).
Proof. by at_simpl. Qed.

Lemma App_load_row_plot_size (r : Row) :
  at_ (App.load_row r) "Plot_Size" = to_numeric (at_ r "Plot_Size").
Proof. by at_simpl. Qed.



Lemma fillna_to_numeric_Num (c : cell) :
  ∃ q, fillna (int 0) (to_numeric c) = Num q.
Proof.
  destruct c as [|q|s|t]; simpl; eauto.
  destruct (parse_number s); simpl; eauto.
Qed.

(** C4. After [load_data], every row holds a number in [Sold_Amount],
    and that number is 0 when the sheet's value was blank or did not
    parse as a number; [Plot_Size] is missing, not a number, when the
    sheet's value did not parse. *)
Theorem sold_amount_zero_filled_plot_size_left_absent (df : DataFrame) :
  (∀ c, c ∈ ["Plot_Number"; "Plot_Size"; "Sold_Amount"; "X_pct"; "Y_pct";
             "Sold_Date"] → c ∈ columns df) →
  ∃ df', App.load_data df = Ok df' ∧
    Forall2 (λ raw r,
        (∃ q, at_ r "Sold_Amount" = Num q)
        ∧ (at_ raw "Sold_Amount" = NaN → at_ r "Sold_Amount" = Num 0)
        ∧ (∀ s, at_ raw "Sold_Amount" = Str s → parse_number s = None →
                at_ r "Sold_Amount" = Num 0)
        ∧ (∀ s, at_ raw "Plot_Size" = Str s → parse_number s = None →
                at_ r "Plot_Size" = NaN))
      (rows df) (rows df').
Proof.
  intros Hcols. eexists. split; [by apply App_load_data_Ok|]. simpl.
  apply Forall2_fmap_self. intros raw.
  rewrite App_load_row_sold_amount, App_load_row_plot_size.
  split; [apply fillna_to_numeric_Num|].
  split; [by intros ->|].
  split; intros s -> Hs; simpl; by rewrite Hs.
Qed.
End Coercions.

Lemma sold_amount_zero_filled_plot_size_left_absent_witness :
  (∀ c, c ∈ ["Plot_Number"; "Plot_Size"; "Sold_Amount"; "X_pct"; "Y_pct";
             "Sold_Date"] → c ∈ columns Samples.pct_sheet)
  ∧ ∃ df', App.load_data Samples.pct_sheet = Ok df'
    ∧ Forall2 (λ raw r,
        (∃ q, at_ r "Sold_Amount" = Num q)
        ∧ (at_ raw "Sold_Amount" = NaN → at_ r "Sold_Amount" = Num 0)
        ∧ (∀ s, at_ raw "Sold_Amount" = Str s → parse_number s = None →
                at_ r "Sold_Amount" = Num 0)
        ∧ (∀ s, at_ raw "Plot_Size" = Str s → parse_number s = None →
                at_ r "Plot_Size" = NaN))
      (rows Samples.pct_sheet) (rows df').
Proof.
  assert (∀ c, c ∈ ["Plot_Number"; "Plot_Size"; "Sold_Amount"; "X_pct"; "Y_pct";
                    "Sold_Date"] → c ∈ columns Samples.pct_sheet) as Hcols.
  { apply Forall_forall.
    repeat (constructor; [apply (bool_decide_unpack _); exact I|]).
    constructor. }
  split; [exact Hcols|].
  apply sold_amount_zero_filled_plot_size_left_absent. exact Hcols.
Defined.

(** The blank amount and the unreadable size of the second plot. *)
Example load_data_pct_sheet :
  (df ← App.load_data Samples.pct_sheet;
   mret ((λ r, (at_ r "Plot_Number", at_ r "Plot_Size", at_ r "Sold_Amount"))
           <$> rows df))
  = Ok [(Str "1", Num 1200, Num 100000); (Str "2", NaN, Num 0)].
Proof. vm_compute. reflexivity. Qed.

(** ** Columns that [load_data] leaves alone *)

Section Frame.
Context `{PandasText}.

Lemma lookup_assign_ne (r : Row) (c c' : string) (f : cell → cell) :
  c ≠ c' → assign c f r !! c' = r !! c'.
Proof. intros Hne. unfold assign. by rewrite lookup_insert_ne. Qed.

Lemma App_load_row_frame (r : Row) (c : string) :
  c ∉ ["Plot_Number"; "Plot_Size"; "Sold_Amount"; "X_pct"; "Y_pct"; "Sold_Date"] →
  App.load_row r !! c = r !! c.
Proof.
  intros Hc. unfold App.load_row.
  rewrite !lookup_assign_ne; [done|..]; intros <-; apply Hc; set_solver.
Qed.

Lemma AppMulti_load_row_frame (r : Row) (c : string) :
  c ∉ ["Plot_Number"; "Plot_Size"; "Sold_Amount"; "X_pixel"; "Y_pixel"; "Sold_Date"] →
  AppMulti.load_row r !! c = r !! c.
Proof.
  intros Hc. unfold AppMulti.load_row.
  rewrite !lookup_assign_ne; [done|..]; intros <-; apply Hc; set_solver.
Qed.

(** C10. [load_data] changes only the columns it coerces.  In every
    row the other fields, and [Owner_Name] and [Status] among them, are
    the values of the sheet, so the owner filter and the test
    [Status == "Sold"] see the sheet's strings.  This holds for app.py
    and for app_multi.py. *)
Theorem load_data_keeps_owner_and_status :
  (∀ df,
     (∀ c, c ∈ ["Plot_Number"; "Plot_Size"; "Sold_Amount"; "X_pct"; "Y_pct";
                "Sold_Date"] → c ∈ columns df) →
     ∃ df', App.load_data df = Ok df' ∧
       Forall2 (λ raw r,
           (∀ c, c ∉ ["Plot_Number"; "Plot_Size"; "Sold_Amount"; "X_pct";
                      "Y_pct"; "Sold_Date"] → r !! c = raw !! c)
           ∧ at_ r "Owner_Name" = at_ raw "Owner_Name"
           ∧ at_ r "Status" = at_ raw "Status"
           ∧ (∀ owners, isin owners (at_ r "Owner_Name")
                        = isin owners (at_ raw "Owner_Name"))
           ∧ eq_str "Sold" (at_ r "Status") = eq_str "Sold" (at_ raw "Status"))
         (rows df) (rows df'))
  ∧ (∀ df,
       (∀ c, c ∈ AppMulti.required_cols → c ∈ columns df) →
       ∃ df', AppMulti.load_data df = Ok df' ∧
         Forall2 (λ raw r,
             (∀ c, c ∉ ["Plot_Number"; "Plot_Size"; "Sold_Amount"; "X_pixel";
                        "Y_pixel"; "Sold_Date"] → r !! c = raw !! c)
             ∧ at_ r "Owner_Name" = at_ raw "Owner_Name"
             ∧ at_ r "Status" = at_ raw "Status"
             ∧ (∀ owners, isin owners (at_ r "Owner_Name")
                          = isin owners (at_ raw "Owner_Name"))
             ∧ eq_str "Sold" (at_ r "Status") = eq_str "Sold" (at_ raw "Status"))
           (rows df) (rows df')).
Proof.
  split; intros df Hcols.
  - eexists. split; [by apply App_load_data_Ok|]. simpl.
    apply Forall2_fmap_self. intros raw.
    assert (at_ (App.load_row raw) "Owner_Name" = at_ raw "Owner_Name") as Ho.
    { unfold at_. rewrite App_load_row_frame; [done|by apply (bool_decide_unpack _)]. }
    assert (at_ (App.load_row raw) "Status" = at_ raw "Status") as Hs.
    { unfold at_. rewrite App_load_row_frame; [done|by apply (bool_decide_unpack _)]. }
    split; [apply App_load_row_frame|]. rewrite Ho, Hs. done.
  - eexists. split; [by apply AppMulti_load_data_rows, missing_cols_nil|]. simpl.
    apply Forall2_fmap_self. intros raw.
    assert (at_ (AppMulti.load_row raw) "Owner_Name" = at_ raw "Owner_Name") as Ho.
    { unfold at_. rewrite AppMulti_load_row_frame; [done|by apply (bool_decide_unpack _)]. }
    assert (at_ (AppMulti.load_row raw) "Status" = at_ raw "Status") as Hs.
    { unfold at_. rewrite AppMulti_load_row_frame; [done|by apply (bool_decide_unpack _)]. }
    split; [apply AppMulti_load_row_frame|]. rewrite Ho, Hs. done.
Qed.
End Frame.

Lemma load_data_keeps_owner_and_status_witness :
  ((∀ c, c ∈ ["Plot_Number"; "Plot_Size"; "Sold_Amount"; "X_pct"; "Y_pct";
              "Sold_Date"] → c ∈ columns Samples.pct_sheet)
   ∧ ∃ df', App.load_data Samples.pct_sheet = Ok df' ∧
       Forall2 (λ raw r,
           (∀ c, c ∉ ["Plot_Number"; "Plot_Size"; "Sold_Amount"; "X_pct";
                      "Y_pct"; "Sold_Date"] → r !! c = raw !! c)
           ∧ at_ r "Owner_Name" = at_ raw "Owner_Name"
           ∧ at_ r "Status" = at_ raw "Status"
           ∧ (∀ owners, isin owners (at_ r "Owner_Name")
                        = isin owners (at_ raw "Owner_Name"))
           ∧ eq_str "Sold" (at_ r "Status") = eq_str "Sold" (at_ raw "Status"))
         (rows Samples.pct_sheet) (rows df'))
  ∧ ((∀ c, c ∈ AppMulti.required_cols → c ∈ columns Samples.pixel_sheet)
     ∧ ∃ df', AppMulti.load_data Samples.pixel_sheet = Ok df' ∧
         Forall2 (λ raw r,
             (∀ c, c ∉ ["Plot_Number"; "Plot_Size"; "Sold_Amount"; "X_pixel";
                        "Y_pixel"; "Sold_Date"] → r !! c = raw !! c)
             ∧ at_ r "Owner_Name" = at_ raw "Owner_Name"
             ∧ at_ r "Status" = at_ raw "Status"
             ∧ (∀ owners, isin owners (at_ r "Owner_Name")
                          = isin owners (at_ raw "Owner_Name"))
             ∧ eq_str "Sold" (at_ r "Status") = eq_str "Sold" (at_ raw "Status"))
           (rows Samples.pixel_sheet) (rows df')).
Proof.
  assert (∀ c, c ∈ ["Plot_Number"; "Plot_Size"; "Sold_Amount"; "X_pct"; "Y_pct";
                    "Sold_Date"] → c ∈ columns Samples.pct_sheet) as Hpct.
  { apply Forall_forall.
    repeat (constructor; [apply (bool_decide_unpack _); exact I|]).
    constructor. }
  assert (∀ c, c ∈ AppMulti.required_cols → c ∈ columns Samples.pixel_sheet)
    as Hpixel by (intros c Hc; exact Hc).
  split; (split; [assumption|]).
  - apply (proj1 load_data_keeps_owner_and_status). exact Hpct.
  - apply (proj2 load_data_keeps_owner_and_status). exact Hpixel.
Defined.

(** ** Percentage coordinates *)

Section Percentage.
Context `{PandasText}.

End Percentage.


Example percentage_mapping_sample :
  (df ← App.load_data Samples.pct_sheet;
   mret ((λ r, (at_ r "X_pct", at_ r "Y_pct")) <$> rows df))
  = Ok [(Num (50 * (3742 / 4425)), Num (100 * 1.75));
        (Num (0 * (3742 / 4425)), NaN)].
Proof. vm_compute. reflexivity. Qed.

(** ** Pixel coordinates *)

Lemma AppMulti_plot_coords_Ok (img_height : Z) (df : DataFrame) :
  "X_pixel" ∈ columns df → "Y_pixel" ∈ columns df →
  ∃ df', AppMulti.plot_coords img_height df = Ok df'
         ∧ rows df' = AppMulti.plot_row img_height <$> rows df
         ∧ ∀ c, c ∈ columns df → c ∈ columns df'.
Proof.
  intros Hx Hy. unfold AppMulti.plot_coords.
  rewrite getitem_Ok by done. cbn [mbind result_bind].
  rewrite getitem_Ok by (by apply columns_setitem).
  cbn [mbind result_bind mret result_ret].
  eexists. split; [reflexivity|]. split.
  - rewrite <- list_fmap_compose, rows_setitem_fmap, rows_setitem_fmap.
    rewrite <- list_fmap_compose. apply list_fmap_ext. intros i r Hr.
    unfold AppMulti.plot_row. simpl. by rewrite at_insert_ne by done.
  - intros c Hc. by do 2 apply columns_setitem.
Qed.





(** An image 1000 pixels high: the plot at [y = 20] from the top is drawn
    at 980 from the bottom; the plot without [Y_pixel] has no [Y_plot]. *)
Example plot_coords_pixel_sheet :
  (df ← AppMulti.load_data Samples.pixel_sheet;
   df ← AppMulti.plot_coords 1000 df;
   mret ((λ r, (at_ r "X_plot", at_ r "Y_plot")) <$> rows df))
  = Ok [(Num 10, Num (1000 - 20)); (Num 30, NaN)].
Proof. reflexivity. Qed.


(** ** Filters *)

(** The masks of [render_dashboard], read row by row. *)
Lemma date_filter_Ok (df : DataFrame) (w : AppMulti.Widgets) :
  "Sold_Date" ∈ columns df →
  AppMulti.date_filter df w = Ok (AppMulti.date_clause w <$> rows df).
Proof.
  intros Hc. unfold AppMulti.date_filter. rewrite getitem_Ok by done.
  cbn [mbind result_bind mret result_ret]. f_equal.
  rewrite <- !list_fmap_compose, mask_and_fmap, mask_or_fmap. done.
Qed.

Lemma owner_filter_Ok (df : DataFrame) (w : AppMulti.Widgets) :
  "Owner_Name" ∈ columns df →
  AppMulti.owner_filter df w = Ok (AppMulti.owner_clause w <$> rows df).
Proof.
  intros Hc. unfold AppMulti.owner_filter. rewrite getitem_Ok by done.
  cbn [mbind result_bind mret result_ret]. f_equal.
  rewrite <- !list_fmap_compose. done.
Qed.

Lemma size_filter_Ok (df : DataFrame) (w : AppMulti.Widgets) :
  "Plot_Size" ∈ columns df →
  AppMulti.size_filter df w = Ok (AppMulti.size_clause w <$> rows df).
Proof.
  intros Hc. unfold AppMulti.size_filter. rewrite getitem_Ok by done.
  cbn [mbind result_bind mret result_ret]. f_equal.
  rewrite <- !list_fmap_compose, mask_and_fmap. done.
Qed.

Lemma AppMulti_df_filtered_Ok (df : DataFrame) (w : AppMulti.Widgets) :
  "Sold_Date" ∈ columns df → "Owner_Name" ∈ columns df →
  "Plot_Size" ∈ columns df →
  AppMulti.df_filtered df w
  = Ok {| columns := columns df;
          rows := List.filter
                    (λ r, AppMulti.date_clause w r && AppMulti.owner_clause w r
                          && AppMulti.size_clause w r) (rows df) |}.
Proof.
  intros Hd Ho Hs. unfold AppMulti.df_filtered.
  rewrite date_filter_Ok, owner_filter_Ok, size_filter_Ok by done.
  cbn [mbind result_bind mret result_ret]. f_equal.
  unfold loc. f_equal.
  rewrite !mask_and_fmap. apply select_fmap.
Qed.

Lemma App_df_filtered_Ok (df : DataFrame) (start_date end_date : Z)
    (selected_owners : list string) :
  "Sold_Date" ∈ columns df → "Owner_Name" ∈ columns df →
  App.df_filtered df start_date end_date selected_owners
  = Ok {| columns := columns df;
          rows := List.filter (App.keep start_date end_date selected_owners)
                    (rows df) |}.
Proof.
  intros Hd Ho. unfold App.df_filtered.
  rewrite !getitem_Ok by done.
  cbn [mbind result_bind mret result_ret]. f_equal.
  unfold loc. f_equal.
  rewrite <- !list_fmap_compose, mask_and_fmap, mask_or_fmap, mask_and_fmap.
  apply select_fmap.
Qed.

Lemma AppV2_df_filtered_eq (df : DataFrame) (start_date end_date : Z)
    (selected_owners : list string) :
  AppV2.df_filtered df start_date end_date selected_owners
  = App.df_filtered df start_date end_date selected_owners.
Proof. reflexivity. Qed.

Lemma date_clause_true (w : AppMulti.Widgets) (r : Row) :
  AppMulti.date_clause w r = true ↔
  (at_ r "Sold_Date" = NaN ∧ AppMulti.include_unsold w = true)
  ∨ (∃ t, at_ r "Sold_Date" = Timestamp t
          ∧ (AppMulti.start_date w <= t <= AppMulti.end_date w)%Z).
Proof.
  unfold AppMulti.date_clause, at_least, at_most.
  destruct (at_ r "Sold_Date") as [|q|s|t]; simpl.
  - rewrite orb_false_r. split; [by left|]. by intros [[_ ?]|(t & ? & _)].
  - split; [done|]. by intros [[? _]|(t & ? & _)].
  - split; [done|]. by intros [[? _]|(t & ? & _)].
  - rewrite andb_true_iff, !Z.leb_le. split.
    + intros Hin. right. by exists t.
    + intros [[? _]|(t' & [= <-] & Hin)]; done.
Qed.

(** C2. The date mask of [render_dashboard] is True on a row exactly
    when its [Sold_Date] is missing and [include_unsold] is ticked, or its
    [Sold_Date] is a date between [start_date] and [end_date], both
    included.  So with [include_unsold] off a row without a date is never
    kept, whatever the range, and with it on such a row is never turned
    away by the date mask. *)
Theorem date_filter_includes_iff (df : DataFrame) (w : AppMulti.Widgets) :
  "Sold_Date" ∈ columns df →
  ∃ mask, AppMulti.date_filter df w = Ok mask ∧
    Forall2 (λ r (b : bool),
        (b = true ↔
         (at_ r "Sold_Date" = NaN ∧ AppMulti.include_unsold w = true)
         ∨ (∃ t, at_ r "Sold_Date" = Timestamp t
                 ∧ (AppMulti.start_date w <= t <= AppMulti.end_date w)%Z))
        ∧ (AppMulti.include_unsold w = false → at_ r "Sold_Date" = NaN → b = false)
        ∧ (AppMulti.include_unsold w = true → at_ r "Sold_Date" = NaN → b = true))
      (rows df) mask.
Proof.
  intros Hc. eexists. split; [by apply date_filter_Ok|].
  apply Forall2_fmap_self. intros r.
  split; [apply date_clause_true|]. split.
  - intros Hoff Hna. apply not_true_is_false. rewrite date_clause_true.
    rewrite Hoff, Hna. by intros [[_ ?]|(t & ? & _)].
  - intros Hon Hna. apply date_clause_true. by left.
Qed.

Example timestamps_of_sales :
  SampleText.datetime "15/01/24" = Some 752942%Z
  ∧ SampleText.datetime "01/01/24" = Some 752928%Z.
Proof. split; reflexivity. Qed.

Lemma date_filter_includes_iff_witness :
  "Sold_Date" ∈ columns Samples.sales
  ∧ ∃ mask, AppMulti.date_filter Samples.sales Samples.january = Ok mask ∧
    Forall2 (λ r (b : bool),
        (b = true ↔
         (at_ r "Sold_Date" = NaN ∧ AppMulti.include_unsold Samples.january = true)
         ∨ (∃ t, at_ r "Sold_Date" = Timestamp t
                 ∧ (AppMulti.start_date Samples.january <= t
                    <= AppMulti.end_date Samples.january)%Z))
        ∧ (AppMulti.include_unsold Samples.january = false →
           at_ r "Sold_Date" = NaN → b = false)
        ∧ (AppMulti.include_unsold Samples.january = true →
           at_ r "Sold_Date" = NaN → b = true))
      (rows Samples.sales) mask.
Proof.
  split; [column_present|].
  apply date_filter_includes_iff. column_present.
Defined.

(** The sale of 1 February 2024 falls outside January; the rows without
    a date follow [include_unsold]. *)
Example date_filter_january :
  AppMulti.date_filter Samples.sales Samples.january
  = Ok [true; false; true; true]
  ∧ AppMulti.date_filter Samples.sales Samples.january_sold_only
    = Ok [true; false; false; false].
Proof. split; reflexivity. Qed.

(** In app.py and app_v2.py the date part of the mask has no
    [include_unsold]: a row without a date always passes it. *)
Lemma App_keep_true (start_date end_date : Z) (selected_owners : list string)
    (r : Row) :
  App.keep start_date end_date selected_owners r = true ↔
  (at_ r "Sold_Date" = NaN
   ∨ ∃ t, at_ r "Sold_Date" = Timestamp t ∧ (start_date <= t <= end_date)%Z)
  ∧ ∃ o, at_ r "Owner_Name" = Str o ∧ o ∈ selected_owners.
Proof.
  unfold App.keep, at_least, at_most, isin. rewrite andb_true_iff.
  assert (∀ P P' Q Q' : Prop, (P ↔ P') → (Q ↔ Q') → (P ∧ Q ↔ P' ∧ Q')) as Hand
    by tauto.
  apply Hand.
  - destruct (at_ r "Sold_Date") as [|q|s|t]; simpl.
    + split; [by left|done].
    + split; [done|]. by intros [?|(t & ? & _)].
    + split; [done|]. by intros [?|(t & ? & _)].
    + rewrite andb_true_iff, !Z.leb_le. split.
      * intros Hin. right. by exists t.
      * intros [?|(t' & [= <-] & Hin)]; done.
  - destruct (at_ r "Owner_Name") as [|q|s|t]; try (split; [done|by intros (o & ? & _)]).
    rewrite bool_decide_eq_true. split.
    + intros Hin. by exists s.
    + by intros (o & [= <-] & Hin).
Qed.

Lemma size_clause_true (w : AppMulti.Widgets) (r : Row) :
  AppMulti.size_clause w r = true ↔
  ∃ p, at_ r "Plot_Size" = Num p
       ∧ (AppMulti.min_size w <= p <= AppMulti.max_size w)%Q.
Proof.
  unfold AppMulti.size_clause, at_least, at_most.
  destruct (at_ r "Plot_Size") as [|q|s|t]; simpl;
    try (split; [done|by intros (p & ? & _)]).
  rewrite andb_true_iff, !Qle_bool_iff. split.
  - intros Hin. by exists q.
  - by intros (p & [= <-] & Hin).
Qed.

Lemma Forall_filter_true {A} (p : A → bool) (l : list A) :
  Forall (λ x, p x = true) (List.filter p l).
Proof.
  apply Forall_forall. intros x Hx.
  apply list_elem_of_In, filter_In in Hx. tauto.
Qed.

(** C8. The size mask of [render_dashboard] is True on a row exactly
    when its [Plot_Size] is a number between [min_size] and [max_size],
    both included; it is False on a row without a size, and no such row
    is in [df_filtered]. *)
Theorem size_filter_passes_iff (df : DataFrame) (w : AppMulti.Widgets) :
  "Sold_Date" ∈ columns df → "Owner_Name" ∈ columns df →
  "Plot_Size" ∈ columns df →
  ∃ mask df', AppMulti.size_filter df w = Ok mask
    ∧ AppMulti.df_filtered df w = Ok df'
    ∧ Forall2 (λ r (b : bool),
          (b = true ↔
           ∃ p, at_ r "Plot_Size" = Num p
                ∧ (AppMulti.min_size w <= p <= AppMulti.max_size w)%Q)
          ∧ (at_ r "Plot_Size" = NaN → b = false))
        (rows df) mask
    ∧ Forall (λ r, ∃ p, at_ r "Plot_Size" = Num p
                        ∧ (AppMulti.min_size w <= p <= AppMulti.max_size w)%Q)
        (rows df').
Proof.
  intros Hd Ho Hs. eexists. eexists.
  split; [by apply size_filter_Ok|].
  split; [by apply AppMulti_df_filtered_Ok|].
  split.
  - apply Forall2_fmap_self. intros r. split; [apply size_clause_true|].
    intros Hna. apply not_true_is_false. rewrite size_clause_true, Hna.
    by intros (p & ? & _).
  - simpl. eapply Forall_impl; [apply Forall_filter_true|].
    intros r Hr. simpl in Hr. apply size_clause_true.
    apply andb_true_iff in Hr. tauto.
Qed.

Lemma size_filter_passes_iff_witness :
  ("Sold_Date" ∈ columns Samples.sales ∧ "Owner_Name" ∈ columns Samples.sales
   ∧ "Plot_Size" ∈ columns Samples.sales)
  ∧ ∃ mask df', AppMulti.size_filter Samples.sales Samples.january = Ok mask
    ∧ AppMulti.df_filtered Samples.sales Samples.january = Ok df'
    ∧ Forall2 (λ r (b : bool),
          (b = true ↔
           ∃ p, at_ r "Plot_Size" = Num p
                ∧ (AppMulti.min_size Samples.january <= p
                   <= AppMulti.max_size Samples.january)%Q)
          ∧ (at_ r "Plot_Size" = NaN → b = false))
        (rows Samples.sales) mask
    ∧ Forall (λ r, ∃ p, at_ r "Plot_Size" = Num p
                        ∧ (AppMulti.min_size Samples.january <= p
                           <= AppMulti.max_size Samples.january)%Q)
        (rows df').
Proof.
  split; [repeat split; column_present|].
  apply size_filter_passes_iff; column_present.
Defined.

Example size_filter_sales :
  AppMulti.size_filter Samples.sales Samples.january
  = Ok [true; true; true; false].
Proof. reflexivity. Qed.

(** C9. Filtering the filtered frame again, with the same controls,
    returns it unchanged: in [render_dashboard], in app.py and in
    app_v2.py. *)
Theorem df_filtered_idempotent :
  (∀ df w,
     "Sold_Date" ∈ columns df → "Owner_Name" ∈ columns df →
     "Plot_Size" ∈ columns df →
     ∃ df', AppMulti.df_filtered df w = Ok df'
            ∧ AppMulti.df_filtered df' w = Ok df')
  ∧ (∀ df start_date end_date selected_owners,
       "Sold_Date" ∈ columns df → "Owner_Name" ∈ columns df →
       ∃ df', App.df_filtered df start_date end_date selected_owners = Ok df'
              ∧ App.df_filtered df' start_date end_date selected_owners = Ok df')
  ∧ (∀ df start_date end_date selected_owners,
       "Sold_Date" ∈ columns df → "Owner_Name" ∈ columns df →
       ∃ df', AppV2.df_filtered df start_date end_date selected_owners = Ok df'
              ∧ AppV2.df_filtered df' start_date end_date selected_owners = Ok df').
Proof.
  split; [|split].
  - intros df w Hd Ho Hs. eexists.
    split; [by apply AppMulti_df_filtered_Ok|].
    rewrite AppMulti_df_filtered_Ok by done. simpl.
    by rewrite filter_filter_same.
  - intros df s e owners Hd Ho. eexists.
    split; [by apply App_df_filtered_Ok|].
    rewrite App_df_filtered_Ok by done. simpl.
    by rewrite filter_filter_same.
  - intros df s e owners Hd Ho. eexists. rewrite !AppV2_df_filtered_eq.
    split; [by apply App_df_filtered_Ok|].
    rewrite App_df_filtered_Ok by done. simpl.
    by rewrite filter_filter_same.
Qed.

Lemma df_filtered_idempotent_witness :
  ("Sold_Date" ∈ columns Samples.sales ∧ "Owner_Name" ∈ columns Samples.sales
   ∧ "Plot_Size" ∈ columns Samples.sales)
  ∧ ∃ df', AppMulti.df_filtered Samples.sales Samples.january = Ok df'
           ∧ AppMulti.df_filtered df' Samples.january = Ok df'
           ∧ (λ r, at_ r "Plot_Number") <$> rows df' = [Str "1"; Str "3"].
Proof.
  split; [repeat split; column_present|].
  destruct (proj1 df_filtered_idempotent Samples.sales Samples.january)
    as (df' & Hfirst & Hagain); [column_present..|].
  exists df'. split; [exact Hfirst|]. split; [exact Hagain|].
  assert (Ok df' = AppMulti.df_filtered Samples.sales Samples.january) as Heq
    by (symmetry; exact Hfirst).
  vm_compute in Heq. injection Heq as ->. reflexivity.
Defined.

(** ** The sold-summary table *)

(** The example of the specification: two sales of one owner, none of
    the other. *)
Example summary_sales :
  (table ← summary "TOTAL" Samples.sales ["S.V. INFRA"; "SAUKHYADA INFRA LLP"];
   mret ((λ r, (at_ r "Owner", at_ r "Sold_Plots", at_ r "Total_Sold_Amount"))
           <$> rows table))
  = Ok [(Str "S.V. INFRA", Num 2, Num 150000);
        (Str "SAUKHYADA INFRA LLP", Num 0, Num 0);
        (Str "TOTAL", Num 2, Num 150000)].
Proof. vm_compute. reflexivity. Qed.

(** No owner ticked: the table is the total row alone. *)
Example summary_no_owner :
  (table ← summary "TOTAL" Samples.sales [];
   mret ((λ r, (at_ r "Owner", at_ r "Sold_Plots", at_ r "Total_Sold_Amount"))
           <$> rows table))
  = Ok [(Str "TOTAL", Num 0, Num 0)].
Proof. vm_compute. reflexivity. Qed.

(** *** Groups *)






Lemma filter_fmap {A B} (p : B → bool) (f : A → B) (l : list A) :
  List.filter p (f <$> l) = f <$> List.filter (λ x, p (f x)) l.
Proof.
  induction l as [|x l IH]; [done|].
  csimpl. destruct (p (f x)); csimpl; by rewrite IH.
Qed.

Lemma filter_ext_in {A} (p q : A → bool) (l : list A) :
  (∀ x, x ∈ l → p x = q x) → List.filter p l = List.filter q l.
Proof.
  intros Heq. apply List.filter_ext_in. intros x Hx. by apply Heq, list_elem_of_In.
Qed.


Lemma bind_singleton {A B} (h : A → B) (g : A → list B) (l : list A) :
  (∀ x, g x = [h x]) → l ≫= g = h <$> l.
Proof.
  intros Hg. induction l as [|x l IH]; [done|].
  csimpl. by rewrite Hg, IH.
Qed.

(** *** Aggregation and join *)












(** After [load_data] no plot number is missing. *)
Lemma load_row_plot_number `{PandasText} (r : Row) :
  isna (at_ (App.load_row r) "Plot_Number") = false
  ∧ isna (at_ (AppV2.load_row r) "Plot_Number") = false
  ∧ isna (at_ (AppMulti.load_row r) "Plot_Number") = false.
Proof.
  unfold App.load_row, AppV2.load_row, AppMulti.load_row.
  repeat split;
    repeat first [rewrite at_assign | rewrite at_assign_ne by done];
    by destruct (at_ r "Plot_Number").
Qed.


(** ** Marker sizes *)

Lemma foldl_fmin_spec (s : Series) (acc : option Q) (lo : Q) :
  foldl fmin acc s = Some lo →
  (∀ m, acc = Some m → (lo <= m)%Q)
  ∧ (∀ q, Num q ∈ s → (lo <= q)%Q)
  ∧ (acc = Some lo ∨ Num lo ∈ s).
Proof.
  revert acc. induction s as [|c s IH]; intros acc Hfold; simpl in Hfold.
  - subst acc. split; [intros m [= ->]; apply Qle_refl|].
    split; [|by left]. intros q Hq. by apply not_elem_of_nil in Hq.
  - apply IH in Hfold as (Hacc & Hall & Hmem).
    destruct c as [|q|str|t];
      try (split; [done|]; split;
           [intros q' [?|?]%elem_of_cons; [done|auto]
           |destruct Hmem; [by left|right; by right]]).
    destruct acc as [m|].
    + destruct (Qle_bool m q) eqn:Hle.
      * apply Qle_bool_iff in Hle.
        split; [intros m' [= <-]; auto|].
        split; [|destruct Hmem; [by left|right; by right]].
        intros q' [[= <-]|?]%elem_of_cons; [|auto].
        eapply Qle_trans; [by apply Hacc|done].
      * assert (q <= m)%Q as Hqm.
        { apply Qlt_le_weak, Qnot_le_lt. intros Hmq.
          apply Qle_bool_iff in Hmq. congruence. }
        split; [intros m' [= <-]; eapply Qle_trans; [by apply Hacc|done]|].
        split; [intros q' [[= <-]|?]%elem_of_cons; auto|].
        destruct Hmem as [[= <-]|?]; right; [left|by right].
    + split; [done|].
      split; [intros q' [[= <-]|?]%elem_of_cons; auto|].
      destruct Hmem as [[= <-]|?]; right; [left|by right].
Qed.

Lemma foldl_fmax_spec (s : Series) (acc : option Q) (hi : Q) :
  foldl fmax acc s = Some hi →
  (∀ m, acc = Some m → (m <= hi)%Q)
  ∧ (∀ q, Num q ∈ s → (q <= hi)%Q)
  ∧ (acc = Some hi ∨ Num hi ∈ s).
Proof.
  revert acc. induction s as [|c s IH]; intros acc Hfold; simpl in Hfold.
  - subst acc. split; [intros m [= ->]; apply Qle_refl|].
    split; [|by left]. intros q Hq. by apply not_elem_of_nil in Hq.
  - apply IH in Hfold as (Hacc & Hall & Hmem).
    destruct c as [|q|str|t];
      try (split; [done|]; split;
           [intros q' [?|?]%elem_of_cons; [done|auto]
           |destruct Hmem; [by left|right; by right]]).
    destruct acc as [m|].
    + destruct (Qle_bool q m) eqn:Hle.
      * apply Qle_bool_iff in Hle.
        split; [intros m' [= <-]; auto|].
        split; [|destruct Hmem; [by left|right; by right]].
        intros q' [[= <-]|?]%elem_of_cons; [|auto].
        eapply Qle_trans; [done|by apply Hacc].
      * assert (m <= q)%Q as Hqm.
        { apply Qlt_le_weak, Qnot_le_lt. intros Hmq.
          apply Qle_bool_iff in Hmq. congruence. }
        split; [intros m' [= <-]; eapply Qle_trans; [done|by apply Hacc]|].
        split; [intros q' [[= <-]|?]%elem_of_cons; auto|].
        destruct Hmem as [[= <-]|?]; right; [left|by right].
    + split; [done|].
      split; [intros q' [[= <-]|?]%elem_of_cons; auto|].
      destruct Hmem as [[= <-]|?]; right; [left|by right].
Qed.

(** [s.min()] is an element of [s] below every number of [s]; [s.max()]
    is one above every number. *)
Lemma series_min_spec (s : Series) (lo : Q) :
  series_min s = Some lo → Num lo ∈ s ∧ ∀ q, Num q ∈ s → (lo <= q)%Q.
Proof.
  intros (_ & Hall & [?|Hmem])%foldl_fmin_spec; done.
Qed.

Lemma series_max_spec (s : Series) (hi : Q) :
  series_max s = Some hi → Num hi ∈ s ∧ ∀ q, Num q ∈ s → (q <= hi)%Q.
Proof.
  intros (_ & Hall & [?|Hmem])%foldl_fmax_spec; done.
Qed.

(** The normalized size of a plot between the smallest and the largest. *)
Lemma normalized_size_bounds (p lo hi : Q) :
  (lo <= p)%Q → (p <= hi)%Q → (lo < hi)%Q →
  let t := ((p - lo) / (hi - lo))%Q in
  (0 <= t <= 1)%Q
  ∧ (p == lo → t == 0)%Q
  ∧ (p == hi → t == 1)%Q
  ∧ (lo < p → p < hi → 0 < t ∧ t < 1)%Q.
Proof.
  intros Hlo Hhi Hlt t. subst t.
  assert (0 < hi - lo)%Q as Hpos by lra.
  assert (¬ (hi - lo == 0)%Q) as Hnz by lra.
  repeat split.
  - apply Qle_shift_div_l; [done|]. lra.
  - apply Qle_shift_div_r; [done|]. lra.
  - intros ->. field. done.
  - intros ->. field. done.
  - apply Qlt_shift_div_l; [done|]. lra.
  - apply Qlt_shift_div_r; [done|]. lra.
Qed.

Lemma marker_size_bounds (t : Q) :
  (0 <= t <= 1)%Q →
  let v := (AppMulti.min_marker
            + sqrt (Q2R t) * (AppMulti.max_marker - AppMulti.min_marker))%R in
  ((t == 0)%Q → v = 12%R)
  ∧ ((t == 1)%Q → v = 40%R)
  ∧ ((0 < t)%Q → (t < 1)%Q → (12 < v < 40)%R).
Proof.
  intros [H0 H1] v. subst v. unfold AppMulti.min_marker, AppMulti.max_marker.
  split; [|split].
  - intros Ht%Qeq_eqR. rewrite Ht, RMicromega.Q2R_0, sqrt_0. lra.
  - intros Ht%Qeq_eqR. rewrite Ht, RMicromega.Q2R_1, sqrt_1. lra.
  - intros Hpos%Qlt_Rlt Hone%Qlt_Rlt.
    rewrite RMicromega.Q2R_0 in Hpos. rewrite RMicromega.Q2R_1 in Hone.
    pose proof (sqrt_lt_R0 _ Hpos) as Hsqrt0.
    assert (sqrt (Q2R t) < 1)%R as Hsqrt1.
    { rewrite <- sqrt_1. apply sqrt_lt_1_alt. lra. }
    split; nra.
Qed.

Lemma marker_sizes_spread (df : DataFrame) (lo hi : Q) :
  "Plot_Size" ∈ columns df → 0 < len df →
  series_min ((λ r, at_ r "Plot_Size") <$> rows df) = Some lo →
  series_max ((λ r, at_ r "Plot_Size") <$> rows df) = Some hi →
  (lo < hi)%Q →
  AppMulti.marker_sizes df
  = Ok ((λ r, match at_ r "Plot_Size" with
              | Num p =>
                  Some (AppMulti.min_marker
                        + sqrt (Q2R ((p - lo) / (hi - lo)))
                          * (AppMulti.max_marker - AppMulti.min_marker))%R
              | _ => None
              end) <$> rows df).
Proof.
  intros Hc Hlen Hmin Hmax Hlt. unfold AppMulti.marker_sizes.
  rewrite bool_decide_eq_true_2 by done.
  rewrite getitem_Ok by done. cbn [mbind result_bind].
  rewrite Hmin, Hmax.
  destruct (Qlt_le_dec 0 (hi - lo)) as [_|Hle]; [|lra].
  cbn [mret result_ret]. by rewrite <- list_fmap_compose.
Qed.

Lemma marker_sizes_level (df : DataFrame) :
  "Plot_Size" ∈ columns df → 0 < len df →
  (∀ lo hi, series_min ((λ r, at_ r "Plot_Size") <$> rows df) = Some lo →
            series_max ((λ r, at_ r "Plot_Size") <$> rows df) = Some hi →
            (hi <= lo)%Q) →
  AppMulti.marker_sizes df = Ok (replicate (len df) (Some 30%R)).
Proof.
  intros Hc Hlen Hlevel. unfold AppMulti.marker_sizes.
  rewrite bool_decide_eq_true_2 by done.
  rewrite getitem_Ok by done. cbn [mbind result_bind].
  destruct (series_max _) as [hi|]; [|done].
  destruct (series_min _) as [lo|]; [|done].
  destruct (Qlt_le_dec 0 (hi - lo)) as [Hlt|_]; [|done].
  specialize (Hlevel lo hi eq_refl eq_refl). lra.
Qed.

Example df_filtered_samples :
  AppMulti.df_filtered Samples.sales Samples.year_2024 = Ok Samples.three_sizes
  ∧ AppMulti.df_filtered Samples.sales Samples.january_one_owner
    = Ok Samples.one_plot.
Proof. split; reflexivity. Qed.



(** The example of the specification: sizes 1000, 2000 and 4000. *)
Example marker_sizes_three_sizes :
  ∃ middle : R,
    AppMulti.marker_sizes Samples.three_sizes
    = Ok [Some 12%R; Some middle; Some 40%R]
    ∧ (12 < middle < 40)%R.
Proof.
  assert (0 <= (2000 - 1000) / (4000 - 1000) <= 1)%Q as Ht by (split; discriminate).
  destruct (marker_size_bounds _ Ht) as (_ & _ & Hmid).
  eexists. split; [|apply Hmid; reflexivity].
  rewrite (marker_sizes_spread Samples.three_sizes 1000 4000);
    [|column_present|vm_compute; lia|reflexivity..].
  cbn [fmap list_fmap Samples.three_sizes loc rows select Samples.sales].
  assert (0 <= (1000 - 1000) / (4000 - 1000) <= 1)%Q as Ht0 by (split; discriminate).
  destruct (marker_size_bounds _ Ht0) as (Hlo & _ & _).
  assert (0 <= (4000 - 1000) / (4000 - 1000) <= 1)%Q as Ht1 by (split; discriminate).
  destruct (marker_size_bounds _ Ht1) as (_ & Hhi & _).
  do 2 f_equal; [f_equal; apply Hlo; reflexivity|].
  do 2 f_equal. f_equal. apply Hhi. reflexivity.
Qed.


(** ** The whole tab *)

Lemma series_count_all_na (s : Series) :
  Forall (λ c, c = NaN) s → series_count s = 0.
Proof.
  unfold series_count. induction 1 as [|c s -> Hs IH]; [done|]. simpl. exact IH.
Qed.

(** A sheet without any sold date is not drawn. *)
Lemma render_dashboard_no_dates (df : DataFrame) (img_height : Z)
    (w : AppMulti.Widgets) :
  "X_pixel" ∈ columns df → "Y_pixel" ∈ columns df → "Sold_Date" ∈ columns df →
  Forall (λ r, at_ r "Sold_Date" = NaN) (rows df) →
  AppMulti.render_dashboard df img_height w = Ok None.
Proof.
  intros Hx Hy Hd Hna. unfold AppMulti.render_dashboard.
  destruct (AppMulti_plot_coords_Ok img_height df Hx Hy)
    as (df' & -> & Hrows & Hcols).
  cbn [mbind result_bind].
  rewrite getitem_Ok by auto. cbn [mbind result_bind].
  rewrite bool_decide_eq_true_2; [done|].
  apply series_count_all_na. rewrite Hrows, <- list_fmap_compose.
  apply Forall_fmap. eapply Forall_impl; [exact Hna|].
  intros r Hr. cbn [compose]. unfold AppMulti.plot_row.
  by rewrite !at_insert_ne by done.
Qed.

(** The sample frame in 2024: three plots drawn, two owners and the total
    in the table. *)
Example render_dashboard_sales :
  ∃ d, AppMulti.render_dashboard Samples.sales 1000 Samples.year_2024 = Ok (Some d)
       ∧ (λ r, at_ r "Plot_Number") <$> rows (AppMulti.points d)
         = [Str "1"; Str "2"; Str "3"]
       ∧ length (AppMulti.diameters d) = 3
       ∧ (λ r, at_ r "Owner") <$> rows (AppMulti.sold_summary d)
         = [Str "S.V. INFRA"; Str "SAUKHYADA INFRA LLP"; Str "**TOTAL**"].
Proof. eexists. repeat split; reflexivity. Qed.

(** * Further properties of the scripts *)

(** ** Owner colours *)

Lemma palette_get_Some (owner_palette : Palette) (owner color : string) :
  NoDup owner_palette.*1 → (owner, color) ∈ owner_palette →
  palette_get owner_palette owner = Some color.
Proof.
  unfold palette_get.
  induction owner_palette as [|[k v] p IH]; intros Hnd Hin; csimpl in *.
  - by apply not_elem_of_nil in Hin.
  - apply NoDup_cons in Hnd as [Hk Hnd].
    apply elem_of_cons in Hin as [[= <- <-]|Hin].
    + by rewrite bool_decide_eq_true_2.
    + rewrite bool_decide_eq_false_2; [by apply IH|].
      intros ->. apply Hk. apply list_elem_of_fmap. by exists (owner, color).
Qed.

Lemma palette_get_None (owner_palette : Palette) (owner : string) :
  owner ∉ owner_palette.*1 → palette_get owner_palette owner = None.
Proof.
  unfold palette_get.
  induction owner_palette as [|[k v] p IH]; intros Hnin; csimpl in *; [done|].
  apply not_elem_of_cons in Hnin as [Hne Hnin].
  rewrite bool_decide_eq_false_2 by done. by apply IH.
Qed.

Lemma palette_get_elem (owner_palette : Palette) (owner color : string) :
  palette_get owner_palette owner = Some color → (owner, color) ∈ owner_palette.
Proof.
  unfold palette_get.
  induction owner_palette as [|[k v] p IH]; csimpl; [done|].
  case_bool_decide as Hk; simpl.
  - intros [= <-]. subst k. left.
  - intros Hget. right. by apply IH.
Qed.

Lemma owner_color_Ok (df : DataFrame) (owner_palette : Palette) :
  "Owner_Name" ∈ columns df →
  ∃ df', owner_color df owner_palette = Ok df'
         ∧ rows df' = color_row owner_palette <$> rows df
         ∧ ∀ c, c ∈ columns df → c ∈ columns df'.
Proof.
  intros Ho. unfold owner_color. rewrite getitem_Ok by done.
  cbn [mbind result_bind mret result_ret].
  eexists. split; [reflexivity|]. split.
  - rewrite <- !list_fmap_compose. apply rows_setitem_fmap.
  - intros c Hc. by apply columns_setitem.
Qed.

(** X1. The colour of a plot is the colour its owner has in the
    palette, and the gray [#999999] when the owner is not a key of the
    palette or is missing; it is never missing.  The assignment keeps
    every row and changes no other field. *)
Theorem owner_color_palette_or_gray (df : DataFrame) (owner_palette : Palette) :
  "Owner_Name" ∈ columns df → NoDup owner_palette.*1 →
  ∃ df', owner_color df owner_palette = Ok df'
    ∧ len df' = len df
    ∧ Forall2 (λ r0 r,
          (∀ c, c ≠ "Owner_Color" → r !! c = r0 !! c)
          ∧ (∀ owner color, at_ r0 "Owner_Name" = Str owner →
                            (owner, color) ∈ owner_palette →
                            at_ r "Owner_Color" = Str color)
          ∧ ((∀ owner, at_ r0 "Owner_Name" = Str owner →
                       owner ∉ owner_palette.*1) →
             at_ r "Owner_Color" = Str "#999999")
          ∧ ∃ color, at_ r "Owner_Color" = Str color)
        (rows df) (rows df').
Proof.
  intros Ho Hnd.
  destruct (owner_color_Ok df owner_palette Ho) as (df' & Hrun & Hrows & _).
  exists df'. split; [done|]. unfold len. rewrite Hrows.
  split; [by rewrite length_fmap|].
  apply Forall2_fmap_self. intros r0. unfold color_row.
  rewrite at_insert.
  split; [intros c Hc; by rewrite lookup_insert_ne|].
  split; [|split].
  - intros owner color -> Hin. simpl.
    by rewrite (palette_get_Some _ _ color).
  - intros Hout. destruct (at_ r0 "Owner_Name") as [|q|s|t]; try done.
    simpl. by rewrite palette_get_None by auto.
  - destruct (at_ r0 "Owner_Name") as [|q|s|t]; simpl; eauto.
    destruct (palette_get owner_palette s); simpl; eauto.
Qed.

Lemma owner_color_palette_or_gray_witness :
  ("Owner_Name" ∈ columns Samples.sales ∧ NoDup Legend.owner_palette.*1)
  ∧ ∃ df', owner_color Samples.sales Legend.owner_palette = Ok df'
    ∧ len df' = len Samples.sales
    ∧ Forall2 (λ r0 r,
          (∀ c, c ≠ "Owner_Color" → r !! c = r0 !! c)
          ∧ (∀ owner color, at_ r0 "Owner_Name" = Str owner →
                            (owner, color) ∈ Legend.owner_palette →
                            at_ r "Owner_Color" = Str color)
          ∧ ((∀ owner, at_ r0 "Owner_Name" = Str owner →
                       owner ∉ Legend.owner_palette.*1) →
             at_ r "Owner_Color" = Str "#999999")
          ∧ ∃ color, at_ r "Owner_Color" = Str color)
        (rows Samples.sales) (rows df').
Proof.
  assert (NoDup Legend.owner_palette.*1) as Hnd
    by (apply (bool_decide_unpack _); exact I).
  split; [split; [column_present|exact Hnd]|].
  apply owner_color_palette_or_gray; [column_present|exact Hnd].
Defined.

Example owner_color_sales :
  (df ← owner_color Samples.pixel_sheet [("S.V. INFRA", "#2ca02c")];
   mret ((λ r, at_ r "Owner_Color") <$> rows df))
  = Ok [Str "#2ca02c"; Str "#999999"].
Proof. reflexivity. Qed.

(** ** Legend *)

Lemma foldl_value_counts (s : Series) (counts : gmap string nat) (owner : string) :
  default 0 (foldl (λ counts c,
                      match c with
                      | Str k => <[k := S (default 0 (counts !! k))]> counts
                      | _ => counts
                      end) counts s !! owner)
  = default 0 (counts !! owner) + length (List.filter (eq_str owner) s).
Proof.
  revert counts. induction s as [|c s IH]; intros counts; simpl; [lia|].
  rewrite IH. destruct c as [|q|k|t]; simpl; try done.
  destruct (decide (k = owner)) as [->|Hne].
  - rewrite lookup_insert_eq, bool_decide_eq_true_2 by done. simpl. lia.
  - rewrite lookup_insert_ne, bool_decide_eq_false_2 by done. done.
Qed.

(** X2. The number the legend prints beside an owner,
    [owner_counts.get(owner, 0)], is the number of rows of the sheet with
    that owner name, sold or not; it is 0 for an owner without a row. *)
Theorem owner_counts_get (df : DataFrame) :
  "Owner_Name" ∈ columns df →
  ∃ counts, owner_counts df = Ok counts
    ∧ ∀ owner,
        default 0 (counts !! owner)
        = length (List.filter (λ r, eq_str owner (at_ r "Owner_Name")) (rows df)).
Proof.
  intros Ho. unfold owner_counts. rewrite getitem_Ok by done.
  cbn [mbind result_bind mret result_ret]. eexists. split; [reflexivity|].
  intros owner. unfold value_counts. rewrite foldl_value_counts.
  rewrite lookup_empty. simpl. by rewrite filter_fmap, length_fmap.
Qed.

Lemma owner_counts_get_witness :
  "Owner_Name" ∈ columns Samples.sales
  ∧ ∃ counts, owner_counts Samples.sales = Ok counts
    ∧ default 0 (counts !! "S.V. INFRA") = 2
    ∧ default 0 (counts !! "BRINDAVAN ASSETS HOLDINGS") = 0.
Proof.
  split; [column_present|].
  destruct (owner_counts_get Samples.sales) as (counts & Hrun & Hget);
    [column_present|].
  exists counts. split; [exact Hrun|]. by rewrite !Hget.
Defined.

Lemma foldl_selected_owners (owner_palette : Palette) (checkbox : string → bool)
    (selected : list string) :
  foldl (λ selected item,
           if checkbox item.1 then (selected ++ [item.1])%list else selected)
    selected owner_palette
  = (selected ++ List.filter checkbox owner_palette.*1)%list.
Proof.
  revert selected.
  induction owner_palette as [|[k v] p IH]; intros selected; csimpl.
  - by rewrite app_nil_r.
  - rewrite IH. destruct (checkbox k); [|done]. by rewrite <- app_assoc.
Qed.

Lemma selected_owners_filter (owner_palette : Palette) (checkbox : string → bool) :
  selected_owners owner_palette checkbox = List.filter checkbox owner_palette.*1.
Proof. unfold selected_owners. by rewrite foldl_selected_owners. Qed.

Lemma sublist_List_filter {A} (p : A → bool) (l : list A) :
  List.filter p l `sublist_of` l.
Proof.
  induction l as [|x l IH]; simpl; [done|].
  destruct (p x); by constructor.
Qed.

Lemma elem_of_List_filter {A} (p : A → bool) (l : list A) (x : A) :
  x ∈ List.filter p l ↔ x ∈ l ∧ p x = true.
Proof. by rewrite !list_elem_of_In, filter_In. Qed.

(** X3. The ticked owners are the keys of the palette whose box is
    ticked, in the order of the palette: no owner outside the palette, no
    owner twice, and all the keys when every box is ticked. *)
Theorem selected_owners_of_palette (owner_palette : Palette)
    (checkbox : string → bool) :
  selected_owners owner_palette checkbox `sublist_of` owner_palette.*1
  ∧ (∀ owner, owner ∈ selected_owners owner_palette checkbox ↔
              owner ∈ owner_palette.*1 ∧ checkbox owner = true)
  ∧ (NoDup owner_palette.*1 → NoDup (selected_owners owner_palette checkbox))
  ∧ ((∀ owner, owner ∈ owner_palette.*1 → checkbox owner = true) →
     selected_owners owner_palette checkbox = owner_palette.*1).
Proof.
  rewrite selected_owners_filter.
  split; [apply sublist_List_filter|].
  split; [intros owner; apply elem_of_List_filter|].
  split.
  - intros Hnd. eapply sublist_NoDup; [done|apply sublist_List_filter].
  - intros Hall. induction (owner_palette.*1) as [|k l IH]; simpl; [done|].
    rewrite Hall by left. f_equal. apply IH. intros o Ho. apply Hall. by right.
Qed.

Lemma selected_owners_of_palette_witness :
  selected_owners Legend.owner_palette Legend.all_ticked
  = ["BRINDAVAN ASSETS HOLDINGS"; "SAUKHYADA INFRA LLP"; "S.V. INFRA"]
  ∧ selected_owners Legend.owner_palette Legend.without_sv
    = ["BRINDAVAN ASSETS HOLDINGS"; "SAUKHYADA INFRA LLP"]
  ∧ NoDup (selected_owners Legend.owner_palette Legend.without_sv).
Proof.
  split; [reflexivity|]. split; [reflexivity|].
  apply (proj1 (proj2 (proj2
    (selected_owners_of_palette Legend.owner_palette Legend.without_sv)))).
  apply (bool_decide_unpack _). exact I.
Defined.

(** ** Colours of the plots drawn *)

Lemma color_row_owner_name (owner_palette : Palette) (r : Row) :
  at_ (color_row owner_palette r) "Owner_Name" = at_ r "Owner_Name".
Proof. unfold color_row. by rewrite at_insert_ne. Qed.

Lemma color_row_of_selected (owner_palette : Palette) (checkbox : string → bool)
    (r : Row) :
  NoDup owner_palette.*1 →
  isin (selected_owners owner_palette checkbox)
       (at_ (color_row owner_palette r) "Owner_Name") = true →
  ∃ owner color,
    at_ (color_row owner_palette r) "Owner_Name" = Str owner
    ∧ checkbox owner = true
    ∧ (owner, color) ∈ owner_palette
    ∧ at_ (color_row owner_palette r) "Owner_Color" = Str color.
Proof.
  intros Hnd. rewrite color_row_owner_name. unfold color_row.
  rewrite at_insert.
  destruct (at_ r "Owner_Name") as [|q|owner|t]; simpl; try done.
  rewrite bool_decide_eq_true, selected_owners_filter, elem_of_List_filter.
  intros [Hkey Hbox].
  apply list_elem_of_fmap in Hkey as ([k color] & -> & Hitem). simpl in *.
  exists k, color. rewrite (palette_get_Some _ _ color) by done. done.
Qed.

(** X4. When the ticked owners come from the palette, every row that
    reaches the figure has a ticked owner of the palette and carries that
    owner's colour: the fallback gray is given only to rows the owner
    filter removes.  This holds in [render_dashboard], in app.py and in
    app_v2.py. *)
Theorem drawn_rows_have_palette_colour (df : DataFrame)
    (owner_palette : Palette) (checkbox : string → bool) :
  "Sold_Date" ∈ columns df → "Owner_Name" ∈ columns df →
  NoDup owner_palette.*1 →
  ∃ colored, owner_color df owner_palette = Ok colored
    ∧ (∀ start_date end_date,
         ∃ df_filtered,
           App.df_filtered colored start_date end_date
             (selected_owners owner_palette checkbox) = Ok df_filtered
           ∧ AppV2.df_filtered colored start_date end_date
               (selected_owners owner_palette checkbox) = Ok df_filtered
           ∧ Forall (λ r, ∃ owner color,
                 at_ r "Owner_Name" = Str owner ∧ checkbox owner = true
                 ∧ (owner, color) ∈ owner_palette
                 ∧ at_ r "Owner_Color" = Str color) (rows df_filtered))
    ∧ (∀ w, "Plot_Size" ∈ columns df →
         AppMulti.selected_owners w = selected_owners owner_palette checkbox →
         ∃ df_filtered,
           AppMulti.df_filtered colored w = Ok df_filtered
           ∧ Forall (λ r, ∃ owner color,
                 at_ r "Owner_Name" = Str owner ∧ checkbox owner = true
                 ∧ (owner, color) ∈ owner_palette
                 ∧ at_ r "Owner_Color" = Str color) (rows df_filtered)).
Proof.
  intros Hd Ho Hnd.
  destruct (owner_color_Ok df owner_palette Ho) as (colored & Hrun & Hrows & Hcols).
  exists colored. split; [done|]. split.
  - intros start_date end_date. eexists.
    split; [apply App_df_filtered_Ok; auto|].
    split; [apply (App_df_filtered_Ok colored); auto|].
    cbn [rows]. rewrite Hrows.
    apply Forall_forall. intros r [Hr Hkeep]%elem_of_List_filter.
    apply list_elem_of_fmap in Hr as (r0 & -> & _).
    apply (color_row_of_selected _ checkbox); [done|].
    unfold App.keep in Hkeep. apply andb_true_iff in Hkeep. tauto.
  - intros w Hs Hsel. eexists.
    split; [apply AppMulti_df_filtered_Ok; auto|].
    cbn [rows]. rewrite Hrows.
    apply Forall_forall. intros r [Hr Hkeep]%elem_of_List_filter.
    apply list_elem_of_fmap in Hr as (r0 & -> & _).
    apply (color_row_of_selected _ checkbox); [done|].
    unfold AppMulti.owner_clause in Hkeep. rewrite Hsel in Hkeep.
    apply andb_true_iff in Hkeep as [Hkeep _].
    apply andb_true_iff in Hkeep. tauto.
Qed.

Lemma drawn_rows_have_palette_colour_witness :
  ("Sold_Date" ∈ columns Samples.sales ∧ "Owner_Name" ∈ columns Samples.sales
   ∧ "Plot_Size" ∈ columns Samples.sales ∧ NoDup Legend.owner_palette.*1)
  ∧ ∃ colored df_filtered,
      owner_color Samples.sales Legend.owner_palette = Ok colored
      ∧ AppMulti.df_filtered colored Legend2.opening = Ok df_filtered
      ∧ Forall (λ r, ∃ owner color,
            at_ r "Owner_Name" = Str owner ∧ Legend.all_ticked owner = true
            ∧ (owner, color) ∈ Legend.owner_palette
            ∧ at_ r "Owner_Color" = Str color) (rows df_filtered).
Proof.
  assert (NoDup Legend.owner_palette.*1) as Hnd
    by (apply (bool_decide_unpack _); exact I).
  split; [repeat split; first [column_present|exact Hnd]|].
  destruct (drawn_rows_have_palette_colour Samples.sales Legend.owner_palette
              Legend.all_ticked) as (colored & Hrun & _ & Hmulti);
    [column_present|column_present|exact Hnd|].
  destruct (Hmulti Legend2.opening) as (df_filtered & Hfilter & Hall);
    [column_present|reflexivity|].
  exists colored, df_filtered. done.
Defined.

(** ** Page title and quick statistics *)









(** 3000 of the 7000 square feet of the sample frame are sold. *)
Example sold_pct_sales :
  (pct ← sold_pct Samples.sales; mret (Qred pct)) = Ok (300 # 7).
Proof. reflexivity. Qed.

(** A sheet whose sizes are all blank: the title shows 0. *)
Example sold_pct_no_size :
  sold_pct {| columns := ["Plot_Size"; "Status"];
              rows := [ {[ "Status" := Str "Sold" ]} ] |} = Ok 0%Q.
Proof. reflexivity. Qed.



Example quick_stats_sales :
  quick_stats Samples.sales
  = Ok {| total_plots := 4; sold_plots := 2; unsold_plots := 2;
          sold_land_area := 0 + 1000 + 2000;
          remaining_land_area := 0 + 1000 + 2000 + 4000 - (0 + 1000 + 2000) |}.
Proof. reflexivity. Qed.

(** ** What the filters keep *)

Lemma sublist_List_filter_impl {A} (p q : A → bool) (l : list A) :
  (∀ x, x ∈ l → p x = true → q x = true) →
  List.filter p l `sublist_of` List.filter q l.
Proof.
  induction l as [|x l IH]; intros Himpl; simpl; [done|].
  assert (List.filter p l `sublist_of` List.filter q l) as Hl.
  { apply IH. intros y Hy. apply Himpl. by right. }
  destruct (p x) eqn:Hp.
  - rewrite (Himpl x) by (done || left). by constructor.
  - destruct (q x); [by constructor|done].
Qed.

(** X7. The filtered frame has the columns of the frame and, in the
    same order, some of its rows, each as it was: filtering adds no row,
    changes no field and reorders nothing.  This holds in
    [render_dashboard], in app.py and in app_v2.py. *)
Theorem df_filtered_is_subsequence (df : DataFrame) :
  "Sold_Date" ∈ columns df → "Owner_Name" ∈ columns df →
  (∀ start_date end_date selected_owners,
     ∃ df', App.df_filtered df start_date end_date selected_owners = Ok df'
       ∧ AppV2.df_filtered df start_date end_date selected_owners = Ok df'
       ∧ columns df' = columns df
       ∧ rows df' `sublist_of` rows df
       ∧ len df' <= len df)
  ∧ (∀ w, "Plot_Size" ∈ columns df →
       ∃ df', AppMulti.df_filtered df w = Ok df'
         ∧ columns df' = columns df
         ∧ rows df' `sublist_of` rows df
         ∧ len df' <= len df).
Proof.
  intros Hd Ho. split.
  - intros start_date end_date selected_owners. eexists.
    split; [by apply App_df_filtered_Ok|].
    split; [by apply (App_df_filtered_Ok df)|].
    split; [done|]. unfold len. cbn [rows].
    split; [apply sublist_List_filter|].
    apply sublist_length, sublist_List_filter.
  - intros w Hs. eexists.
    split; [by apply AppMulti_df_filtered_Ok|].
    split; [done|]. unfold len. cbn [rows].
    split; [apply sublist_List_filter|].
    apply sublist_length, sublist_List_filter.
Qed.

Lemma df_filtered_is_subsequence_witness :
  ("Sold_Date" ∈ columns Samples.sales ∧ "Owner_Name" ∈ columns Samples.sales
   ∧ "Plot_Size" ∈ columns Samples.sales)
  ∧ ∃ df', AppMulti.df_filtered Samples.sales Samples.january = Ok df'
      ∧ columns df' = columns Samples.sales
      ∧ rows df' `sublist_of` rows Samples.sales
      ∧ len df' <= len Samples.sales.
Proof.
  split; [repeat split; column_present|].
  apply (proj2 (df_filtered_is_subsequence Samples.sales
                  ltac:(column_present) ltac:(column_present))).
  column_present.
Defined.

(** X8. Loosening the controls never hides a plot: with an earlier
    start, a later end, a wider size range, more owners ticked, and the
    unsold plots shown if they were, every row kept before is still kept,
    in the same order. *)
Theorem df_filtered_monotone (df : DataFrame) (w w' : AppMulti.Widgets) :
  "Sold_Date" ∈ columns df → "Owner_Name" ∈ columns df →
  "Plot_Size" ∈ columns df →
  (AppMulti.start_date w' <= AppMulti.start_date w)%Z →
  (AppMulti.end_date w <= AppMulti.end_date w')%Z →
  (AppMulti.min_size w' <= AppMulti.min_size w)%Q →
  (AppMulti.max_size w <= AppMulti.max_size w')%Q →
  (AppMulti.include_unsold w = true → AppMulti.include_unsold w' = true) →
  (∀ owner, owner ∈ AppMulti.selected_owners w →
            owner ∈ AppMulti.selected_owners w') →
  ∃ narrow wide,
    AppMulti.df_filtered df w = Ok narrow
    ∧ AppMulti.df_filtered df w' = Ok wide
    ∧ rows narrow `sublist_of` rows wide.
Proof.
  intros Hd Ho Hs Hstart Hend Hmin Hmax Hunsold Howners.
  eexists. eexists.
  split; [by apply AppMulti_df_filtered_Ok|].
  split; [by apply AppMulti_df_filtered_Ok|].
  cbn [rows]. apply sublist_List_filter_impl. intros r _.
  rewrite !andb_true_iff. intros [[Hdate Hown] Hsize].
  split; [split|].
  - apply date_clause_true in Hdate. apply date_clause_true.
    destruct Hdate as [[Hna Hinc]|(t & Ht & Hin)]; [left; auto|].
    right. exists t. split; [done|]. lia.
  - unfold AppMulti.owner_clause, isin in *.
    destruct (at_ r "Owner_Name"); try done.
    apply bool_decide_eq_true. apply bool_decide_eq_true in Hown. auto.
  - apply size_clause_true in Hsize as (p & Hp & Hlo & Hhi).
    apply size_clause_true. exists p. split; [done|].
    split; eapply Qle_trans; eauto.
Qed.

Lemma df_filtered_monotone_witness :
  ∃ narrow wide,
    AppMulti.df_filtered Samples.sales Samples.january_one_owner = Ok narrow
    ∧ AppMulti.df_filtered Samples.sales Samples.year_2024 = Ok wide
    ∧ rows narrow `sublist_of` rows wide
    ∧ len narrow = 1 ∧ len wide = 3.
Proof.
  destruct (df_filtered_monotone Samples.sales Samples.january_one_owner
              Samples.year_2024) as (narrow & wide & Hn & Hw & Hsub).
  - column_present.
  - column_present.
  - column_present.
  - apply Z.leb_le. reflexivity.
  - apply Z.leb_le. reflexivity.
  - apply Qle_bool_iff. reflexivity.
  - apply Qle_bool_iff. reflexivity.
  - intros _. reflexivity.
  - intros owner Hin. change (owner ∈ ["S.V. INFRA"]) in Hin.
    apply list_elem_of_singleton in Hin. rewrite Hin. left.
  - exists narrow, wide. split; [exact Hn|]. split; [exact Hw|].
    split; [exact Hsub|].
    assert (Ok narrow = Ok Samples.one_plot) as Hn' by (rewrite <- Hn; reflexivity).
    assert (Ok wide = Ok Samples.three_sizes) as Hw' by (rewrite <- Hw; reflexivity).
    injection Hn' as ->. injection Hw' as ->. split; reflexivity.
Defined.

(** ** The table as a whole *)




(** *** The total row *)











(** An owner listed twice is counted twice in the total. *)
Example summary_owner_twice :
  (table ← summary "TOTAL" Samples.sales ["S.V. INFRA"; "S.V. INFRA"];
   mret ((λ r, (at_ r "Owner", at_ r "Sold_Plots")) <$> rows table))
  = Ok [(Str "S.V. INFRA", Num 2); (Str "S.V. INFRA", Num 2); (Str "TOTAL", Num 4)].
Proof. vm_compute. reflexivity. Qed.

(** ** The crosses of the sold plots *)





(** In January one cross is drawn, while the table counts both sales. *)
Example crosses_january :
  (df_filtered ← AppMulti.df_filtered Samples.sales Samples.january;
   crosses ← sold df_filtered;
   mret (len crosses))
  = Ok 1
  ∧ length (sold_rows Samples.sales (AppMulti.selected_owners Samples.january)) = 2.
Proof. split; reflexivity. Qed.

(** ** The page as it opens *)

Lemma foldl_fmin_date_spec (s : Series) (acc : option Z) (lo : Z) :
  foldl fmin_date acc s = Some lo →
  (∀ m, acc = Some m → (lo <= m)%Z)
  ∧ (∀ t, Timestamp t ∈ s → (lo <= t)%Z).
Proof.
  revert acc. induction s as [|c s IH]; intros acc Hfold; simpl in Hfold.
  - subst acc. split; [intros m [= ->]; lia|].
    intros t Ht. by apply not_elem_of_nil in Ht.
  - apply IH in Hfold as (Hacc & Hall).
    destruct c as [|q|str|t];
      try (split; [done|]; intros t' [?|?]%elem_of_cons; [done|auto]).
    destruct acc as [m|].
    + destruct (m <=? t)%Z eqn:Hle.
      * apply Z.leb_le in Hle.
        split; [intros m' [= <-]; auto|].
        intros t' [[= <-]|?]%elem_of_cons; [|auto].
        specialize (Hacc m eq_refl). lia.
      * apply Z.leb_gt in Hle.
        split; [intros m' [= <-]; specialize (Hacc t eq_refl); lia|].
        intros t' [[= <-]|?]%elem_of_cons; auto.
    + split; [done|]. intros t' [[= <-]|?]%elem_of_cons; auto.
Qed.

Lemma foldl_fmax_date_spec (s : Series) (acc : option Z) (hi : Z) :
  foldl fmax_date acc s = Some hi →
  (∀ m, acc = Some m → (m <= hi)%Z)
  ∧ (∀ t, Timestamp t ∈ s → (t <= hi)%Z).
Proof.
  revert acc. induction s as [|c s IH]; intros acc Hfold; simpl in Hfold.
  - subst acc. split; [intros m [= ->]; lia|].
    intros t Ht. by apply not_elem_of_nil in Ht.
  - apply IH in Hfold as (Hacc & Hall).
    destruct c as [|q|str|t];
      try (split; [done|]; intros t' [?|?]%elem_of_cons; [done|auto]).
    destruct acc as [m|].
    + destruct (t <=? m)%Z eqn:Hle.
      * apply Z.leb_le in Hle.
        split; [intros m' [= <-]; auto|].
        intros t' [[= <-]|?]%elem_of_cons; [|auto].
        specialize (Hacc m eq_refl). lia.
      * apply Z.leb_gt in Hle.
        split; [intros m' [= <-]; specialize (Hacc t eq_refl); lia|].
        intros t' [[= <-]|?]%elem_of_cons; auto.
    + split; [done|]. intros t' [[= <-]|?]%elem_of_cons; auto.
Qed.

Lemma elem_of_dropna (s : Series) (t : Z) : Timestamp t ∈ s → Timestamp t ∈ dropna s.
Proof. intros Hin. unfold dropna. by apply elem_of_List_filter. Qed.

Lemma selected_owners_all_ticked (owner_palette : Palette) :
  selected_owners owner_palette (λ _, true) = owner_palette.*1.
Proof.
  rewrite selected_owners_filter.
  induction (owner_palette.*1) as [|k l IH]; simpl; by f_equal.
Qed.

(** X12. As the page opens (the date slider on the earliest and latest
    sold dates, the size slider on the smallest and largest sizes, unsold
    plots shown, every box ticked) a loaded frame loses only the rows
    whose owner is not in the palette and, in [render_dashboard], the rows
    without a size. *)
Theorem opening_filter_keeps_palette_plots (df : DataFrame)
    (owner_palette : Palette) (first last : Z) :
  "Sold_Date" ∈ columns df → "Owner_Name" ∈ columns df →
  Forall (λ r, at_ r "Sold_Date" = NaN ∨ ∃ t, at_ r "Sold_Date" = Timestamp t)
    (rows df) →
  min_date (dropna ((λ r, at_ r "Sold_Date") <$> rows df)) = Some first →
  max_date (dropna ((λ r, at_ r "Sold_Date") <$> rows df)) = Some last →
  (∃ df', App.df_filtered df first last
            (selected_owners owner_palette (λ _, true)) = Ok df'
     ∧ AppV2.df_filtered df first last
         (selected_owners owner_palette (λ _, true)) = Ok df'
     ∧ rows df' = List.filter (λ r, isin owner_palette.*1 (at_ r "Owner_Name"))
                    (rows df))
  ∧ (∀ w smallest largest,
       "Plot_Size" ∈ columns df →
       Forall (λ r, at_ r "Plot_Size" = NaN ∨ ∃ q, at_ r "Plot_Size" = Num q)
         (rows df) →
       series_min ((λ r, at_ r "Plot_Size") <$> rows df) = Some smallest →
       series_max ((λ r, at_ r "Plot_Size") <$> rows df) = Some largest →
       w = {| AppMulti.start_date := first; AppMulti.end_date := last;
              AppMulti.min_size := smallest; AppMulti.max_size := largest;
              AppMulti.include_unsold := true;
              AppMulti.selected_owners :=
                selected_owners owner_palette (λ _, true) |} →
       ∃ df', AppMulti.df_filtered df w = Ok df'
         ∧ rows df' = List.filter (λ r, isin owner_palette.*1 (at_ r "Owner_Name")
                                        && negb (isna (at_ r "Plot_Size")))
                        (rows df)).
Proof.
  intros Hd Ho Hdates Hfirst Hlast.
  apply foldl_fmin_date_spec in Hfirst as [_ Hfirst].
  apply foldl_fmax_date_spec in Hlast as [_ Hlast].
  assert (∀ r, r ∈ rows df →
               isna (at_ r "Sold_Date")
               || at_least (Timestamp first) (at_ r "Sold_Date")
                  && at_most (Timestamp last) (at_ r "Sold_Date") = true) as Hdate.
  { intros r Hr. rewrite Forall_forall in Hdates.
    destruct (Hdates r Hr) as [->|(t & Ht)]; [done|]. rewrite Ht.
    assert (Timestamp t ∈ dropna ((λ r, at_ r "Sold_Date") <$> rows df)) as Hin.
    { apply elem_of_dropna, list_elem_of_fmap. exists r. by rewrite Ht. }
    simpl. apply andb_true_iff. rewrite !Z.leb_le. auto. }
  split.
  - eexists. split; [by apply App_df_filtered_Ok|].
    split; [by apply (App_df_filtered_Ok df)|]. cbn [rows].
    apply filter_ext_in. intros r Hr. unfold App.keep.
    by rewrite Hdate, selected_owners_all_ticked.
  - intros w smallest largest Hs Hsizes Hmin Hmax ->.
    apply series_min_spec in Hmin as [_ Hmin].
    apply series_max_spec in Hmax as [_ Hmax].
    eexists. split; [by apply AppMulti_df_filtered_Ok|]. cbn [rows].
    apply filter_ext_in. intros r Hr.
    unfold AppMulti.date_clause, AppMulti.owner_clause, AppMulti.size_clause.
    cbn [AppMulti.start_date AppMulti.end_date AppMulti.min_size
         AppMulti.max_size AppMulti.include_unsold AppMulti.selected_owners].
    rewrite andb_true_r, Hdate, selected_owners_all_ticked by done. simpl.
    f_equal. rewrite Forall_forall in Hsizes.
    destruct (Hsizes r Hr) as [->|(q & Hq)]; [done|]. rewrite Hq.
    assert (Num q ∈ (λ r, at_ r "Plot_Size") <$> rows df) as Hin.
    { apply list_elem_of_fmap. exists r. by rewrite Hq. }
    simpl. apply andb_true_iff. rewrite !Qle_bool_iff. auto.
Qed.

Lemma opening_filter_keeps_palette_plots_witness :
  ∃ df', AppMulti.df_filtered Samples.sales Legend2.opening = Ok df'
    ∧ rows df'
      = List.filter (λ r, isin Legend.owner_palette.*1 (at_ r "Owner_Name")
                          && negb (isna (at_ r "Plot_Size")))
          (rows Samples.sales).
Proof.
  assert (Forall (λ r, at_ r "Sold_Date" = NaN ∨ ∃ t, at_ r "Sold_Date" = Timestamp t)
            (rows Samples.sales)) as Hdates.
  { repeat (apply List.Forall_cons;
            [first [by left | right; eexists; reflexivity]|]).
    apply List.Forall_nil. }
  assert (Forall (λ r, at_ r "Plot_Size" = NaN ∨ ∃ q, at_ r "Plot_Size" = Num q)
            (rows Samples.sales)) as Hsizes.
  { repeat (apply List.Forall_cons;
            [first [by left | right; eexists; reflexivity]|]).
    apply List.Forall_nil. }
  apply (proj2 (opening_filter_keeps_palette_plots Samples.sales
                  Legend.owner_palette 752942 752959
                  ltac:(column_present) ltac:(column_present)
                  Hdates eq_refl eq_refl)
           Legend2.opening 1000%Q 4000%Q);
    first [column_present | exact Hsizes | reflexivity].
Defined.

Example opening_sales :
  (df ← AppMulti.df_filtered Samples.sales Legend2.opening;
   mret ((λ r, at_ r "Plot_Number") <$> rows df))
  = Ok [Str "1"; Str "2"; Str "3"].
Proof. reflexivity. Qed.

(** ** When a tab is drawn *)





(** ** Marker diameters on the filtered frame *)

Lemma marker_size_in_range (t : Q) :
  (0 <= t <= 1)%Q →
  (12 <= AppMulti.min_marker
         + sqrt (Q2R t) * (AppMulti.max_marker - AppMulti.min_marker) <= 40)%R.
Proof.
  intros [H0 H1]. unfold AppMulti.min_marker, AppMulti.max_marker.
  apply Qle_Rle in H0, H1.
  rewrite RMicromega.Q2R_0 in H0. rewrite RMicromega.Q2R_1 in H1.
  pose proof (sqrt_pos (Q2R t)) as Hpos.
  assert (sqrt (Q2R t) <= 1)%R as Hone.
  { rewrite <- sqrt_1. by apply sqrt_le_1_alt. }
  split; nra.
Qed.

Lemma spread_or_level (s : Series) :
  (∃ lo hi, series_min s = Some lo ∧ series_max s = Some hi ∧ (lo < hi)%Q)
  ∨ (∀ lo hi, series_min s = Some lo → series_max s = Some hi → (hi <= lo)%Q).
Proof.
  destruct (series_min s) as [lo|]; [|by right].
  destruct (series_max s) as [hi|]; [|by right].
  destruct (Qlt_le_dec lo hi) as [Hlt|Hle].
  - left. by exists lo, hi.
  - right. by intros lo' hi' [= <-] [= <-].
Qed.

(** X14. Every row of the filtered frame gets a diameter, none is
    missing, and every diameter lies between 12 and 40. *)
Theorem filtered_markers_between_12_and_40 (df : DataFrame) (w : AppMulti.Widgets) :
  "Sold_Date" ∈ columns df → "Owner_Name" ∈ columns df →
  "Plot_Size" ∈ columns df →
  ∃ df_filtered sizes,
    AppMulti.df_filtered df w = Ok df_filtered
    ∧ AppMulti.marker_sizes df_filtered = Ok sizes
    ∧ length sizes = len df_filtered
    ∧ Forall (λ m, ∃ v, m = Some v ∧ (12 <= v <= 40)%R) sizes.
Proof.
  intros Hd Ho Hs.
  set (keep := λ r, AppMulti.date_clause w r && AppMulti.owner_clause w r
                    && AppMulti.size_clause w r).
  set (df_filtered := {| columns := columns df;
                         rows := List.filter keep (rows df) |}).
  assert (AppMulti.df_filtered df w = Ok df_filtered) as Hrun
    by by apply AppMulti_df_filtered_Ok.
  assert (Forall (λ r, ∃ p, at_ r "Plot_Size" = Num p) (rows df_filtered)) as Hnum.
  { cbn [df_filtered rows]. eapply Forall_impl; [apply Forall_filter_true|].
    intros r Hr. unfold keep in Hr. apply andb_true_iff in Hr as [_ Hr].
    apply size_clause_true in Hr as (p & Hp & _). eauto. }
  exists df_filtered.
  destruct (decide (0 < len df_filtered)) as [Hlen|Hlen].
  - destruct (spread_or_level ((λ r, at_ r "Plot_Size") <$> rows df_filtered))
      as [(lo & hi & Hmin & Hmax & Hlt)|Hlevel].
    + eexists. split; [done|].
      split; [by apply (marker_sizes_spread df_filtered lo hi)|].
      unfold len. split; [by rewrite length_fmap|].
      apply Forall_forall. intros m (r & -> & Hr)%list_elem_of_fmap.
      rewrite Forall_forall in Hnum. destruct (Hnum r Hr) as (p & Hp).
      rewrite Hp. eexists. split; [done|].
      assert (Num p ∈ (λ r, at_ r "Plot_Size") <$> rows df_filtered) as Hin.
      { apply list_elem_of_fmap. exists r. by rewrite Hp. }
      apply series_min_spec in Hmin as [_ Hmin].
      apply series_max_spec in Hmax as [_ Hmax].
      apply marker_size_in_range.
      by apply (normalized_size_bounds p lo hi); auto.
    + eexists. split; [done|].
      split; [by apply marker_sizes_level|].
      split; [by rewrite length_replicate|].
      apply Forall_replicate. eexists. split; [done|]. lra.
  - exists []. split; [done|].
    split; [unfold AppMulti.marker_sizes; by rewrite bool_decide_eq_false_2|].
    split; [simpl; lia|constructor].
Qed.

Lemma filtered_markers_between_12_and_40_witness :
  ∃ df_filtered sizes,
    AppMulti.df_filtered Samples.sales Samples.year_2024 = Ok df_filtered
    ∧ AppMulti.marker_sizes df_filtered = Ok sizes
    ∧ length sizes = len df_filtered
    ∧ Forall (λ m, ∃ v, m = Some v ∧ (12 <= v <= 40)%R) sizes.
Proof.
  apply filtered_markers_between_12_and_40; column_present.
Defined.

(** X15. A larger plot never gets a smaller marker: among the rows of a
    frame, diameters follow the order of the sizes. *)
Theorem marker_sizes_monotone (df_filtered : DataFrame)
    (sizes : list (option R)) (i j : nat) (r r' : Row) (p p' : Q) (v v' : R) :
  AppMulti.marker_sizes df_filtered = Ok sizes →
  "Plot_Size" ∈ columns df_filtered →
  rows df_filtered !! i = Some r → rows df_filtered !! j = Some r' →
  at_ r "Plot_Size" = Num p → at_ r' "Plot_Size" = Num p' →
  sizes !! i = Some (Some v) → sizes !! j = Some (Some v') →
  (p <= p')%Q → (v <= v')%R.
Proof.
  intros Hrun Hs Hr Hr' Hp Hp' Hv Hv' Hle.
  assert (0 < len df_filtered) as Hlen.
  { unfold len. apply lookup_lt_Some in Hr. lia. }
  destruct (spread_or_level ((λ r, at_ r "Plot_Size") <$> rows df_filtered))
    as [(lo & hi & Hmin & Hmax & Hlt)|Hlevel].
  - rewrite (marker_sizes_spread df_filtered lo hi) in Hrun by done.
    injection Hrun as <-.
    rewrite list_lookup_fmap, Hr in Hv. rewrite list_lookup_fmap, Hr' in Hv'.
    simpl in Hv, Hv'. rewrite Hp in Hv. rewrite Hp' in Hv'.
    injection Hv as <-. injection Hv' as <-.
    assert (Num p ∈ (λ r, at_ r "Plot_Size") <$> rows df_filtered) as Hin.
    { apply list_elem_of_fmap. exists r. split; [done|].
      by eapply list_elem_of_lookup_2. }
    apply series_min_spec in Hmin as [_ Hmin]. specialize (Hmin p Hin).
    assert ((p - lo) / (hi - lo) <= (p' - lo) / (hi - lo))%Q as Ht.
    { unfold Qdiv. apply Qmult_le_compat_r; [lra|].
      apply Qlt_le_weak, Qinv_lt_0_compat. lra. }
    assert (0 <= (p - lo) / (hi - lo))%Q as Ht0.
    { apply Qle_shift_div_l; lra. }
    apply Qle_Rle in Ht, Ht0. rewrite RMicromega.Q2R_0 in Ht0.
    assert (sqrt (Q2R ((p - lo) / (hi - lo)))
            <= sqrt (Q2R ((p' - lo) / (hi - lo))))%R as Hsqrt
      by by apply sqrt_le_1_alt.
    unfold AppMulti.min_marker, AppMulti.max_marker. nra.
  - rewrite marker_sizes_level in Hrun by done. injection Hrun as <-.
    apply lookup_replicate in Hv as [[= ->] _].
    apply lookup_replicate in Hv' as [[= ->] _]. lra.
Qed.

Lemma marker_sizes_monotone_witness :
  ∃ v v' : R,
    AppMulti.marker_sizes Samples.three_sizes
    = Ok [Some v; Some v'; Some (AppMulti.min_marker
            + sqrt (Q2R ((4000 - 1000) / (4000 - 1000)))
              * (AppMulti.max_marker - AppMulti.min_marker))%R]
    ∧ (v <= v')%R.
Proof.
  eexists. eexists. split; [reflexivity|].
  eapply (marker_sizes_monotone Samples.three_sizes _ 0 1 _ _ 1000 2000);
    [reflexivity|column_present|reflexivity|reflexivity|reflexivity|reflexivity
    |reflexivity|reflexivity|discriminate].
Defined.

(** ** Loading without a schema check *)

Section LoadErrors.
Context `{PandasText}.

Ltac split_hyps :=
  repeat match goal with
         | H : Forall _ (_ :: _) |- _ =>
             let H' := fresh "Hin" in apply Forall_cons in H as [H' H]
         end.

Ltac run_until_missing :=
  cbn [mbind result_bind];
  repeat first
    [ rewrite getitem_Raise by done; reflexivity
    | rewrite getitem_Ok by done; cbn [mbind result_bind];
      first [rewrite setitem_assign_compose by done
            |rewrite setitem_assign by done] ].

(** X16. app.py and app_v2.py read their six columns one after the
    other without a check: when one is missing, [load_data] raises the
    [KeyError] of the first missing column in that order and returns no
    frame, whatever else is missing. *)
Theorem load_data_raises_first_missing (df : DataFrame)
    (before after : list string) (c : string) :
  Forall (λ c', c' ∈ columns df) before → c ∉ columns df →
  ((before ++ c :: after)%list
   = ["Plot_Number"; "Plot_Size"; "Sold_Amount"; "X_pct"; "Y_pct"; "Sold_Date"] →
   App.load_data df = Raise (KeyError c))
  ∧ ((before ++ c :: after)%list
     = ["Plot_Number"; "Plot_Size"; "Sold_Amount"; "X_pixel"; "Y_pixel"; "Sold_Date"] →
     AppV2.load_data df = Raise (KeyError c)).
Proof.
  intros Hbefore Hc. split; intros Heq.
  - do 6 (destruct before as [|? before];
          [simplify_eq/=; split_hyps;
           unfold App.load_data; by run_until_missing|]).
    simplify_eq/=. by destruct before.
  - do 6 (destruct before as [|? before];
          [simplify_eq/=; split_hyps;
           unfold AppV2.load_data; by run_until_missing|]).
    simplify_eq/=. by destruct before.
Qed.
End LoadErrors.

Lemma load_data_raises_first_missing_witness :
  App.load_data Samples.pixel_sheet = Raise (KeyError "X_pct")
  ∧ AppV2.load_data Samples.short_sheet = Raise (KeyError "Sold_Date").
Proof.
  split.
  - apply (proj1 (load_data_raises_first_missing Samples.pixel_sheet
                    ["Plot_Number"; "Plot_Size"; "Sold_Amount"] ["Y_pct"; "Sold_Date"]
                    "X_pct"
                    ltac:(repeat (apply List.Forall_cons; [column_present|]);
                          apply List.Forall_nil)
                    ltac:(column_present))).
    reflexivity.
  - apply (proj2 (load_data_raises_first_missing Samples.short_sheet
                    ["Plot_Number"; "Plot_Size"; "Sold_Amount"; "X_pixel"; "Y_pixel"]
                    [] "Sold_Date"
                    ltac:(repeat (apply List.Forall_cons; [column_present|]);
                          apply List.Forall_nil)
                    ltac:(column_present))).
    reflexivity.
Defined.

(** ** The types and the index of a loaded frame *)

Section LoadedTypes.
Context `{PandasText}.






End LoadedTypes.


(** ** Loading twice *)

Section LoadTwice.
Context `{PandasText}.

Lemma to_numeric_idemp (c : cell) : to_numeric (to_numeric c) = to_numeric c.
Proof. destruct c as [|q|s|t]; simpl; try done. by destruct (parse_number s). Qed.

Lemma astype_str_idemp (c : cell) : astype_str (astype_str c) = astype_str c.
Proof. by destruct c. Qed.

Lemma to_datetime_idemp (c : cell) : to_datetime (to_datetime c) = to_datetime c.
Proof.
  destruct c as [|q|s|t]; simpl; try done.
  - by destruct (parse_datetime _).
  - by destruct (parse_datetime s).
Qed.

Lemma fillna_to_numeric_idemp (c : cell) :
  fillna (int 0) (to_numeric (fillna (int 0) (to_numeric c)))
  = fillna (int 0) (to_numeric c).
Proof. destruct c as [|q|s|t]; simpl; try done. by destruct (parse_number s). Qed.

Lemma assign_fixed (c : string) (f : cell → cell) (x : cell) (m : Row) :
  m !! c = Some (f x) → f (f x) = f x → assign c f m = m.
Proof.
  intros Hm Hf. unfold assign, at_. rewrite Hm. simpl. rewrite Hf.
  by apply insert_id.
Qed.

Lemma AppMulti_load_row_idemp (r : Row) :
  AppMulti.load_row (AppMulti.load_row r) = AppMulti.load_row r.
Proof.
  set (m := AppMulti.load_row r).
  assert (m !! "Plot_Number" = Some (astype_str (at_ r "Plot_Number"))) as H1.
  { subst m. unfold AppMulti.load_row, assign.
    rewrite !lookup_insert_ne by done. rewrite lookup_insert_eq.
    by rewrite ?at_insert_ne by done. }
  assert (m !! "Plot_Size" = Some (to_numeric (at_ r "Plot_Size"))) as H2.
  { subst m. unfold AppMulti.load_row, assign.
    rewrite !lookup_insert_ne by done. rewrite lookup_insert_eq.
    by rewrite ?at_insert_ne by done. }
  assert (m !! "Sold_Amount"
          = Some ((fillna (int 0) ∘ to_numeric) (at_ r "Sold_Amount"))) as H3.
  { subst m. unfold AppMulti.load_row, assign.
    rewrite !lookup_insert_ne by done. rewrite lookup_insert_eq.
    by rewrite ?at_insert_ne by done. }
  assert (m !! "X_pixel" = Some (to_numeric (at_ r "X_pixel"))) as H4.
  { subst m. unfold AppMulti.load_row, assign.
    rewrite !lookup_insert_ne by done. rewrite lookup_insert_eq.
    by rewrite ?at_insert_ne by done. }
  assert (m !! "Y_pixel" = Some (to_numeric (at_ r "Y_pixel"))) as H5.
  { subst m. unfold AppMulti.load_row, assign.
    rewrite !lookup_insert_ne by done. rewrite lookup_insert_eq.
    by rewrite ?at_insert_ne by done. }
  assert (m !! "Sold_Date" = Some (to_datetime (at_ r "Sold_Date"))) as H6.
  { subst m. unfold AppMulti.load_row, assign.
    rewrite lookup_insert_eq. by rewrite ?at_insert_ne by done. }
  unfold AppMulti.load_row at 1.
  rewrite (assign_fixed "Plot_Number" _ _ m H1) by apply astype_str_idemp.
  rewrite (assign_fixed "Plot_Size" _ _ m H2) by apply to_numeric_idemp.
  rewrite (assign_fixed "Sold_Amount" _ _ m H3) by apply fillna_to_numeric_idemp.
  rewrite (assign_fixed "X_pixel" _ _ m H4) by apply to_numeric_idemp.
  rewrite (assign_fixed "Y_pixel" _ _ m H5) by apply to_numeric_idemp.
  by rewrite (assign_fixed "Sold_Date" _ _ m H6) by apply to_datetime_idemp.
Qed.

(** X18. In app_v2.py and app_multi.py a loaded frame is a fixed point
    of [load_data]: every coercion leaves an already coerced value as it
    is, so loading the loaded frame returns it unchanged. *)
Theorem load_data_idempotent (df : DataFrame) :
  (∀ c, c ∈ AppMulti.required_cols → c ∈ columns df) →
  ∃ df', AppMulti.load_data df = Ok df'
    ∧ AppMulti.load_data df' = Ok df'
    ∧ AppV2.load_data df' = Ok df'.
Proof.
  intros Hcols.
  exists {| columns := columns df; rows := AppMulti.load_row <$> rows df |}.
  split; [by apply AppMulti_load_data_rows, missing_cols_nil|].
  assert (AppMulti.load_row <$> (AppMulti.load_row <$> rows df)
          = AppMulti.load_row <$> rows df) as Hrows.
  { rewrite <- list_fmap_compose. apply list_fmap_ext. intros i r _.
    apply AppMulti_load_row_idemp. }
  split.
  - rewrite AppMulti_load_data_rows by by apply missing_cols_nil.
    cbn [rows columns]. by rewrite Hrows.
  - destruct (AppV2.load_data _) as [df'|e] eqn:Hv2.
    + apply AppV2_load_data_inv in Hv2 as ->. cbn [rows columns].
      change AppV2.load_row with AppMulti.load_row. by rewrite Hrows.
    + exfalso. revert Hv2. unfold AppV2.load_data.
      unfold AppMulti.required_cols in Hcols. cbn [columns].
      do 6 (rewrite getitem_Ok by (apply Hcols; by apply (bool_decide_unpack _));
            cbn [mbind result_bind];
            first [rewrite setitem_assign_compose
                     by (apply Hcols; by apply (bool_decide_unpack _))
                  |rewrite setitem_assign
                     by (apply Hcols; by apply (bool_decide_unpack _))];
            cbn [columns]).
      done.
Qed.
End LoadTwice.

Lemma load_data_idempotent_witness :
  (∀ c, c ∈ AppMulti.required_cols → c ∈ columns Samples.pixel_sheet)
  ∧ ∃ df', AppMulti.load_data Samples.pixel_sheet = Ok df'
    ∧ AppMulti.load_data df' = Ok df'
    ∧ AppV2.load_data df' = Ok df'.
Proof.
  assert (∀ c, c ∈ AppMulti.required_cols → c ∈ columns Samples.pixel_sheet)
    as Hreq by (intros c Hc; exact Hc).
  split; [exact Hreq|].
  exact (load_data_idempotent Samples.pixel_sheet Hreq).
Defined.

(** In app.py a second pass would scale the coordinates again. *)
Example App_load_data_twice :
  (df ← App.load_data Samples.pct_sheet;
   df ← App.load_data df;
   mret ((λ r, at_ r "X_pct") <$> rows df))
  = Ok [Num (50 * (3742 / 4425) * (3742 / 4425));
        Num (0 * (3742 / 4425) * (3742 / 4425))].
Proof. reflexivity. Qed.

(** ** The flipped axis *)



(** ** The retry loop *)

(** X20. The loop returns the bytes of the first call that succeeds:
    when the calls before it, at most two, failed with [URLError] or
    [TimeoutError], each failure is reported by one warning numbered from
    1, no call is made after the success, and nothing is raised. *)
Theorem fetch_returns_first_success (urlopen : nat → Fetch.response)
    (k : nat) (csv_bytes : string) :
  k < Fetch.max_retries →
  (∀ i, i < k → is_Some (Fetch.retried (urlopen i))) →
  urlopen k = Fetch.Body csv_bytes →
  Fetch.fetch urlopen
  = {| Fetch.warnings := seq 1 k; Fetch.calls := k + 1;
       Fetch.outcome := Fetch.CsvBytes csv_bytes |}.
Proof.
  intros Hk Hfail Hbody. unfold Fetch.fetch, Fetch.max_retries in *. simpl.
  destruct k as [|[|[|k]]]; [| | |lia].
  - by rewrite Hbody.
  - destruct (Hfail 0) as [e He]; [lia|].
    destruct (urlopen 0); simplify_eq/=; by rewrite Hbody.
  - destruct (Hfail 0) as [e0 He0]; [lia|].
    destruct (Hfail 1) as [e1 He1]; [lia|].
    destruct (urlopen 0); simplify_eq/=;
      destruct (urlopen 1); simplify_eq/=; by rewrite Hbody.
Qed.

Lemma fetch_returns_first_success_witness :
  Fetch.fetch (λ n, match n with
                    | 0 => Fetch.URLError "unreachable"
                    | 1 => Fetch.TimeoutError "timed out"
                    | _ => Fetch.Body "Plot_Number,Status"
                    end)
  = {| Fetch.warnings := [1; 2]; Fetch.calls := 3;
       Fetch.outcome := Fetch.CsvBytes "Plot_Number,Status" |}.
Proof.
  apply (fetch_returns_first_success _ 2 "Plot_Number,Status").
  - unfold Fetch.max_retries. lia.
  - intros [|[|i]] Hi; [by eexists..|lia].
  - reflexivity.
Defined.

(** X21. The loop never makes more than three calls and never ends
    without a result.  After three failures with [URLError] or
    [TimeoutError] it raises the failure that carries the last error,
    having warned twice, not three times; an exception of another kind is
    not retried: it leaves the loop at the call that raised it.  Calls
    after the third have no effect. *)
Theorem fetch_gives_up_after_three (urlopen : nat → Fetch.response) :
  1 <= Fetch.calls (Fetch.fetch urlopen) <= 3
  ∧ Fetch.warnings (Fetch.fetch urlopen)
    = seq 1 (Fetch.calls (Fetch.fetch urlopen) - 1)
  ∧ Fetch.outcome (Fetch.fetch urlopen) ≠ Fetch.Unbound
  ∧ (∀ e0 e1 e2,
       Fetch.retried (urlopen 0) = Some e0 → Fetch.retried (urlopen 1) = Some e1 →
       Fetch.retried (urlopen 2) = Some e2 →
       Fetch.fetch urlopen
       = {| Fetch.warnings := [1; 2]; Fetch.calls := 3;
            Fetch.outcome := Fetch.FailedAfter 3 e2 |})
  ∧ (∀ k text,
       k < 3 → (∀ i, i < k → is_Some (Fetch.retried (urlopen i))) →
       urlopen k = Fetch.OtherException text →
       Fetch.fetch urlopen
       = {| Fetch.warnings := seq 1 k; Fetch.calls := k + 1;
            Fetch.outcome := Fetch.Uncaught text |})
  ∧ (∀ urlopen', (∀ i, i < 3 → urlopen' i = urlopen i) →
       Fetch.fetch urlopen' = Fetch.fetch urlopen).
Proof.
  unfold Fetch.fetch, Fetch.max_retries. simpl.
  split; [|split; [|split; [|split; [|split]]]].
  - destruct (urlopen 0); simpl; try lia;
      destruct (urlopen 1); simpl; try lia;
      destruct (urlopen 2); simpl; lia.
  - destruct (urlopen 0); simpl; try done;
      destruct (urlopen 1); simpl; try done;
      destruct (urlopen 2); simpl; done.
  - destruct (urlopen 0); simpl; try done;
      destruct (urlopen 1); simpl; try done;
      destruct (urlopen 2); simpl; done.
  - intros e0 e1 e2 H0 H1 H2.
    destruct (urlopen 0); simplify_eq/=;
      destruct (urlopen 1); simplify_eq/=;
      destruct (urlopen 2); simplify_eq/=; done.
  - intros k text Hk Hfail Hother.
    destruct k as [|[|[|k]]]; [| | |lia].
    + by rewrite Hother.
    + destruct (Hfail 0) as [e He]; [lia|].
      destruct (urlopen 0); simplify_eq/=; by rewrite Hother.
    + destruct (Hfail 0) as [e0 He0]; [lia|].
      destruct (Hfail 1) as [e1 He1]; [lia|].
      destruct (urlopen 0); simplify_eq/=;
        destruct (urlopen 1); simplify_eq/=; by rewrite Hother.
  - intros urlopen' Hsame.
    by rewrite (Hsame 0), (Hsame 1), (Hsame 2) by lia.
Qed.

Lemma fetch_gives_up_after_three_witness :
  Fetch.fetch (λ _, Fetch.URLError "no route to host")
  = {| Fetch.warnings := [1; 2]; Fetch.calls := 3;
       Fetch.outcome := Fetch.FailedAfter 3 "no route to host" |}.
Proof.
  apply (proj1 (proj2 (proj2 (proj2
    (fetch_gives_up_after_three (λ _, Fetch.URLError "no route to host")))))
    "no route to host" "no route to host" "no route to host"); reflexivity.
Defined.


(** ** The address of a sheet *)

Lemma append_inj_prefix (p x y : string) : p +:+ x = p +:+ y → x = y.
Proof. induction p as [|a p IH]; simpl; [done|]. intros [= Heq]. auto. Qed.

Lemma append_empty_r (s : string) : s +:+ EmptyString = s.
Proof.
  induction s as [|a s IH]; [done|].
  change (String a (s +:+ EmptyString) = String a s). by rewrite IH.
Qed.

(** X22. Two different sheet ids never give the same address, and a sheet
    id never gives the address of the first sheet: the tabs of the
    dashboard, which differ in [sheet_gid] only, read different sheets. *)
Theorem url_separates_sheets (gid1 gid2 : string) :
  gid1 ≠ EmptyString → gid1 ≠ gid2 →
  Fetch.url (Some gid1) ≠ Fetch.url (Some gid2)
  ∧ Fetch.url (Some gid1) ≠ Fetch.url None
  ∧ Fetch.url (Some EmptyString) = Fetch.url None.
Proof.
  intros Hne Hdiff. split; [|split; [|done]].
  - unfold Fetch.url. destruct gid1 as [|a1 g1]; [done|].
    destruct gid2 as [|a2 g2].
    + intros Heq. rewrite <-(append_empty_r Fetch.export_url) in Heq at 2.
      by apply append_inj_prefix in Heq.
    + intros Heq. apply append_inj_prefix in Heq. simpl in Heq. by simplify_eq.
  - unfold Fetch.url. destruct gid1 as [|a1 g1]; [done|].
    intros Heq. rewrite <-(append_empty_r Fetch.export_url) in Heq at 2.
    by apply append_inj_prefix in Heq.
Qed.

Lemma url_separates_sheets_witness :
  Fetch.url (Some "723093039") ≠ Fetch.url (Some "2020669099")
  ∧ Fetch.url (Some "723093039") ≠ Fetch.url None
  ∧ Fetch.url (Some EmptyString) = Fetch.url None.
Proof. apply url_separates_sheets; done. Defined.

(** ** From the network to the typed frame *)

Lemma fetch_CsvBytes_iff (urlopen : nat → Fetch.response)
    (csv_bytes : string) (warned : list nat) :
  Fetch.outcome (Fetch.fetch urlopen) = Fetch.CsvBytes csv_bytes
  ∧ Fetch.warnings (Fetch.fetch urlopen) = warned
  ↔ ∃ k, k < 3 ∧ (∀ i, i < k → is_Some (Fetch.retried (urlopen i)))
      ∧ urlopen k = Fetch.Body csv_bytes ∧ warned = seq 1 k.
Proof.
  unfold Fetch.fetch, Fetch.max_retries. simpl. split.
  - intros [Hout Hwarn].
    destruct (urlopen 0) eqn:E0; simpl in *; simplify_eq;
      try (exists 0; split; [lia|split; [intros; lia|done]]);
      (destruct (urlopen 1) eqn:E1; simpl in *; simplify_eq;
       try (exists 1; split; [lia|split; [|done]];
            intros [|i] Hi; [rewrite E0; by eexists|lia]));
      (destruct (urlopen 2) eqn:E2; simpl in *; simplify_eq;
       exists 2; split; [lia|split; [|done]];
       intros [|[|i]] Hi; [rewrite E0; by eexists|rewrite E1; by eexists|lia]).
  - intros (k & Hk & Hfail & Hbody & ->).
    destruct k as [|[|[|k]]]; [| | |lia].
    + by rewrite Hbody.
    + destruct (Hfail 0) as [e He]; [lia|].
      destruct (urlopen 0); simplify_eq/=; by rewrite Hbody.
    + destruct (Hfail 0) as [e0 He0]; [lia|].
      destruct (Hfail 1) as [e1 He1]; [lia|].
      destruct (urlopen 0); simplify_eq/=;
        destruct (urlopen 1); simplify_eq/=; by rewrite Hbody.
Qed.

Section Sheet.
Context `{PandasText}.

(** X23. [load_data] returns a frame in one case only: one of the first
    three calls succeeds, every call before it failed with [URLError] or
    [TimeoutError], the bytes parse, and the sheet has the eight required
    columns; the frame is then the sheet with its columns typed, and one
    warning was shown for each failed call.  It stops on the report of
    missing columns exactly when the fetch and the parse succeed and a
    required column is absent, and the report lists the absent ones. *)
Theorem load_data_returns_frame_iff (urlopen : nat → Fetch.response)
    (read_csv : string → string + DataFrame) (warned : list nat) :
  (∀ df', Sheet.load_data urlopen read_csv = (warned, inr df')
     ↔ ∃ k csv_bytes df,
         k < 3 ∧ (∀ i, i < k → is_Some (Fetch.retried (urlopen i)))
         ∧ urlopen k = Fetch.Body csv_bytes ∧ warned = seq 1 k
         ∧ read_csv csv_bytes = inr df
         ∧ (∀ c, c ∈ AppMulti.required_cols → c ∈ columns df)
         ∧ df' = {| columns := columns df;
                    rows := AppMulti.load_row <$> rows df |})
  ∧ (∀ missing,
       Sheet.load_data urlopen read_csv = (warned, inl (Sheet.MissingColumns missing))
       ↔ ∃ k csv_bytes df,
           k < 3 ∧ (∀ i, i < k → is_Some (Fetch.retried (urlopen i)))
           ∧ urlopen k = Fetch.Body csv_bytes ∧ warned = seq 1 k
           ∧ read_csv csv_bytes = inr df
           ∧ missing ≠ []
           ∧ missing = List.filter (λ c, bool_decide (c ∉ columns df))
                         AppMulti.required_cols).
Proof.
  split.
  - intros df'. split.
    + unfold Sheet.load_data. intros [= Hwarn Hres].
      destruct (Fetch.outcome (Fetch.fetch urlopen)) as [b| | |] eqn:Hout;
        [|done..].
      destruct (proj1 (fetch_CsvBytes_iff urlopen b warned) (conj Hout Hwarn))
        as (k & Hk & Hfail & Hbody & Hw).
      destruct (read_csv b) as [text|df] eqn:Hread; [done|].
      exists k, b, df. split_and!; try done.
      * apply missing_cols_nil.
        destruct (AppMulti.missing_cols df) eqn:Hm; [done|].
        rewrite AppMulti_load_data_missing in Hres by by rewrite Hm. done.
      * assert (AppMulti.missing_cols df = []) as Hm.
        { destruct (AppMulti.missing_cols df) eqn:Hm; [done|].
          rewrite AppMulti_load_data_missing in Hres by by rewrite Hm. done. }
        rewrite (AppMulti_load_data_rows df Hm) in Hres. by simplify_eq.
    + intros (k & b & df & Hk & Hfail & Hbody & Hw & Hread & Hcols & ->).
      destruct (proj2 (fetch_CsvBytes_iff urlopen b warned)) as [Hout Hwarn];
        [by exists k|].
      unfold Sheet.load_data. rewrite Hout, Hwarn, Hread.
      by rewrite AppMulti_load_data_rows by by apply missing_cols_nil.
  - intros missing. split.
    + unfold Sheet.load_data. intros [= Hwarn Hres].
      destruct (Fetch.outcome (Fetch.fetch urlopen)) as [b| | |] eqn:Hout;
        [|done..].
      destruct (proj1 (fetch_CsvBytes_iff urlopen b warned) (conj Hout Hwarn))
        as (k & Hk & Hfail & Hbody & Hw).
      destruct (read_csv b) as [text|df] eqn:Hread; [done|].
      exists k, b, df.
      destruct (AppMulti.missing_cols df) as [|c l] eqn:Hm.
      * rewrite (AppMulti_load_data_rows df Hm) in Hres. done.
      * rewrite AppMulti_load_data_missing in Hres by by rewrite Hm.
        rewrite Hm in Hres. simplify_eq. by split_and!.
    + intros (k & b & df & Hk & Hfail & Hbody & Hw & Hread & Hne & ->).
      destruct (proj2 (fetch_CsvBytes_iff urlopen b warned)) as [Hout Hwarn];
        [by exists k|].
      unfold Sheet.load_data. rewrite Hout, Hwarn, Hread.
      by rewrite AppMulti_load_data_missing by done.
Qed.
End Sheet.

Lemma load_data_returns_frame_iff_witness :
  Sheet.load_data
    (λ n, match n with
          | 0 => Fetch.TimeoutError "timed out"
          | _ => Fetch.Body "sheet"
          end)
    (λ _, inr Samples.sales)
  = ([1], inr {| columns := columns Samples.sales;
                 rows := AppMulti.load_row <$> rows Samples.sales |}).
Proof.
  apply (proj1 (load_data_returns_frame_iff _ _ _)).
  exists 1, "sheet", Samples.sales. split_and!; try done.
  - lia.
  - intros [|i] Hi; [by eexists|lia].
Defined.
